(** * proxyd consensus poller (optimism/proxyd/consensus_poller.go)

    A shallow embedding of the consensus poller: the per-backend state
    accessors, the block fetcher, the per-backend refresh and the
    group-resolution cycle, followed by the properties established (or
    refuted) about them.

    Conventions.
    - [hexutil.Uint64] is a 64-bit unsigned integer: a [Z] in [0, 2^64),
      with the wrap-around of [-= 1] written out ([dec64]).
    - A [*Backend] is the address of a backend object.  What a backend
      object answers ([Name], [IsRateLimited], [Online], [ForwardRPC]) and
      the clock belong to the surroundings of the poller and are gathered
      in a [World]; one [World] is one snapshot of them.
    - A Go panic is an outcome of its own ([Panic]): nothing in this file
      recovers from one.
    - The agreement-seeking loop has no bound in the source; it is run on
      fuel, and [None] means that the fuel ran out before the loop ended.
    - Locks are not modelled: every function runs alone.  Log and metric
      calls have no effect on the poller; the values the final log lines
      print are the final values of the local variables, which the cycle
      returns. *)

From Stdlib Require Import ZArith Ascii String Lia.
From stdpp Require Import gmap strings list fin_maps.

Local Open Scope string_scope.
Local Open Scope Z_scope.

#[local] Set Warnings "-register-all".

(** ** Machine integers *)

Definition uint64_modulus : Z := 2 ^ 64.

Definition wrap64 (z : Z) : Z := z mod uint64_modulus.

(** [proposedBlock -= 1] on a [hexutil.Uint64]. *)
Definition dec64 (z : Z) : Z := wrap64 (z - 1).

(** ** go-ethereum's [hexutil] (an imported package, not part of the
    repository): the two functions the poller calls, written after the
    package ([checkNumber], [strconv.ParseUint] in base 16 on 64 bits, and
    [EncodeUint64]). *)
Module hexutil.

Definition hex_digit (c : ascii) : option Z :=
  let n := Z.of_nat (nat_of_ascii c) in
  if (48 <=? n) && (n <=? 57) then Some (n - 48)
  else if (97 <=? n) && (n <=? 102) then Some (n - 87)
  else if (65 <=? n) && (n <=? 70) then Some (n - 55)
  else None.

Fixpoint parse_hex (s : string) (acc : Z) : option Z :=
  match s with
  | EmptyString => Some acc
  | String c rest =>
      match hex_digit c with
      | Some d => parse_hex rest (16 * acc + d)
      | None => None
      end
  end.

Definition has0xPrefix (input : string) : bool :=
  match input with
  | String "0" (String "x" _) => true
  | String "0" (String "X" _) => true
  | _ => false
  end.

(** [checkNumber]: the digits after the prefix, or [None] for an empty
    string, a missing prefix, no digit, or a leading zero. *)
Definition checkNumber (input : string) : option string :=
  if has0xPrefix input then
    match input with
    | String _ (String _ raw) =>
        match raw with
        | EmptyString => None
        | String "0" (String _ _) => None
        | _ => Some raw
        end
    | _ => None
    end
  else None.

(** [DecodeUint64]: [None] stands for any of its errors. *)
Definition DecodeUint64 (input : string) : option Z :=
  match checkNumber input with
  | Some raw =>
      match parse_hex raw 0 with
      | Some n => if n <? uint64_modulus then Some n else None
      | None => None
      end
  | None => None
  end.

(** [MustDecodeUint64] panics where [DecodeUint64] errors: [None] is the
    panic. *)
Definition MustDecodeUint64 (input : string) : option Z := DecodeUint64 input.

Definition digit_char (d : Z) : ascii :=
  ascii_of_nat (Z.to_nat (if d <? 10 then 48 + d else 87 + d)).

Fixpoint format_hex (fuel : nat) (n : Z) (acc : string) : string :=
  match fuel with
  | O => acc
  | S fuel' =>
      let acc' := String (digit_char (n mod 16)) acc in
      if n / 16 =? 0 then acc' else format_hex fuel' (n / 16) acc'
  end.

(** [Uint64.String], that is [EncodeUint64]: [0x] and the digits in lower
    case, without leading zeros. *)
Definition String (n : Z) : string := "0x" ++ format_hex 16 n "".

End hexutil.

(** ** Values of type [interface{}] as [encoding/json] produces them *)

Inductive any : Type :=
| Nil : any
| Bool (b : bool) : any
| Float64 (literal : string) : any
| Str (s : string) : any
| Slice (l : list any) : any
| Map (fields : list (string * any)) : any.

(** [m[key]] on a [map[string]interface{}]: the zero value [Nil] when the
    key is absent. *)
Fixpoint index (fields : list (string * any)) (key : string) : any :=
  match fields with
  | [] => Nil
  | (k, v) :: rest => if String.eqb k key then v else index rest key
  end.

(** ** Outcomes *)

(** The outcome of a call that may panic. *)
Inductive result (A : Type) : Type :=
| Ok (a : A)
| Panic.
Arguments Ok {A} a.
Arguments Panic {A}.

(** The three outcomes of [fetchBlock]: the two values with a nil error,
    [(0, "", err)], or a panic. *)
Inductive fetched : Type :=
| Fetched (blockNumber : Z) (blockHash : string)
| FetchError (err : string)
| FetchPanic.

(** ** Data model *)

(** The address of a backend object. *)
Abbreviation Backend := positive.

Record backendState : Type := mkBackendState {
  latestBlockNumber : Z;
  latestBlockHash : string;
  lastUpdate : Z;
  bannedUntil : Z
}.

(** [&backendState{}] *)
Definition zeroBackendState : backendState := mkBackendState 0 "" 0 0.

(** Modelled from the spec: the [ConsensusTracker] interface and its default
    in-memory implementation ([NewInMemoryConsensusTracker]) are declared
    outside consensus_poller.go; the tracker holds exactly one value, the
    last resolved consensus height. *)
Record ConsensusTracker : Type := mkTracker { consensusBlockNumber : Z }.

(** Modelled from the spec: [ConsensusTracker.GetConsensusBlockNumber], the
    get of that one value. *)
Definition tracker_GetConsensusBlockNumber (t : ConsensusTracker) : Z :=
  consensusBlockNumber t.

(** Modelled from the spec: [ConsensusTracker.SetConsensusBlockNumber], the
    set of that one value. *)
Definition tracker_SetConsensusBlockNumber (n : Z) (_ : ConsensusTracker)
  : ConsensusTracker :=
  mkTracker n.

Record ConsensusPoller : Type := mkPoller {
  backendGroup : list Backend;                  (* cp.backendGroup.Backends *)
  backendStates : gmap Backend backendState;    (* cp.backendState *)
  consensusGroup : list Backend;
  tracker : ConsensusTracker
}.

(** One snapshot of what surrounds the poller. *)
Record World : Type := mkWorld {
  Name : Backend -> string;
  IsRateLimited : Backend -> bool;
  Online : Backend -> bool;
  (** [be.ForwardRPC(ctx, &rpcRes, id, method, block, false)]: an error, or
      the [Result] of the response. *)
  ForwardRPC : Backend -> string -> string -> string -> bool -> string + any;
  now : Z
}.

(** ** Accessors *)

(** Go's [copy(dst, src)]: the first [min (len dst) (len src)] elements of
    [src] over those of [dst]. *)
Definition copy {A : Type} (dst src : list A) : list A :=
  let n := Nat.min (length dst) (length src) in
  take n src ++ drop n dst.

(** [GetConsensusGroup]: [make] gives a slice of nil pointers ([None]) as
    long as the backend group. *)
Definition GetConsensusGroup (cp : ConsensusPoller) : list (option Backend) :=
  let g := replicate (length (backendGroup cp)) None in
  copy g (Some <$> consensusGroup cp).

Definition GetConsensusBlockNumber (cp : ConsensusPoller) : Z :=
  tracker_GetConsensusBlockNumber (tracker cp).

(** [NewConsensusPoller] with the no-op async handler: one zero state per
    backend of the group. *)
Definition NewConsensusPoller (bg : list Backend) (t : ConsensusTracker)
  : ConsensusPoller :=
  mkPoller bg
    (foldl (fun state be => <[be := zeroBackendState]> state) ∅ bg)
    [] t.

(** [getBackendState]: a backend without a state makes [bs] nil and the read
    of its fields panic. *)
Definition getBackendState (cp : ConsensusPoller) (be : Backend)
  : result (Z * string) :=
  match backendStates cp !! be with
  | Some bs => Ok (latestBlockNumber bs, latestBlockHash bs)
  | None => Panic
  end.

Definition setBackendState (w : World) (cp : ConsensusPoller) (be : Backend)
    (blockNumber : Z) (blockHash : string) : result (ConsensusPoller * bool) :=
  match backendStates cp !! be with
  | Some bs =>
      let changed := negb (String.eqb (latestBlockHash bs) blockHash) in
      let bs' := mkBackendState blockNumber blockHash (now w) (bannedUntil bs) in
      Ok (mkPoller (backendGroup cp) (<[be := bs']> (backendStates cp))
                   (consensusGroup cp) (tracker cp),
          changed)
  | None => Panic
  end.

(** ** The poller's operations *)

(** The local variables of [UpdateBackendGroupConsensus] that live across
    the rounds of its agreement-seeking loop. *)
Record locals : Type := mkLocals {
  proposedBlock : Z;
  proposedBlockHash : string;
  consensusBackends : list Backend;
  consensusBackendsNames : list string;
  filteredBackendsNames : list string;
  broken : bool;
  allAgreed : bool
}.

(** The top of a round: [allAgreed := true] and the two slices cut back to
    length zero. *)
Definition begin_round (l : locals) : locals :=
  mkLocals (proposedBlock l) (proposedBlockHash l) [] (consensusBackendsNames l)
           [] (broken l) true.

(** [filteredBackendsNames = append(filteredBackendsNames, be.Name)] *)
Definition filter_out (name : string) (l : locals) : locals :=
  mkLocals (proposedBlock l) (proposedBlockHash l) (consensusBackends l)
           (consensusBackendsNames l) (filteredBackendsNames l ++ [name])
           (broken l) (allAgreed l).

(** The backend agrees: it joins [consensusBackends]. *)
Definition agreeing (be : Backend) (name hash : string) (l : locals) : locals :=
  mkLocals (proposedBlock l) hash (consensusBackends l ++ [be])
           (consensusBackendsNames l ++ [name]) (filteredBackendsNames l)
           (broken l) (allAgreed l).

(** The backend does not match: [broken] is raised when the consensus
    already published is at or above the block it answered with, and the
    round stops. *)
Definition disagreeing (breaks : bool) (hash : string) (l : locals) : locals :=
  mkLocals (proposedBlock l) hash (consensusBackends l)
           (consensusBackendsNames l) (filteredBackendsNames l)
           (broken l || breaks) false.

(** "walk one block behind and try again" *)
Definition walk_back (l : locals) : locals :=
  mkLocals (dec64 (proposedBlock l)) "" (consensusBackends l)
           (consensusBackendsNames l) (filteredBackendsNames l)
           (broken l) (allAgreed l).

Section Poller.

(** The two [hexutil] functions the poller calls
    ([hexutil.MustDecodeUint64], with [None] for its panic, and
    [hexutil.Uint64.String]). *)
Variable MustDecodeUint64 : string -> option Z.
Variable Uint64String : Z -> string.

Definition fetchBlock (w : World) (be : Backend) (block : string) : fetched :=
  match ForwardRPC w be "67" "eth_getBlockByNumber" block false with
  | inl err => FetchError err
  | inr (Map jsonMap) =>
      match index jsonMap "number" with
      | Str number =>
          match MustDecodeUint64 number with
          | Some blockNumber =>
              match index jsonMap "hash" with
              | Str blockHash => Fetched blockNumber blockHash
              | _ => FetchPanic
              end
          | None => FetchPanic
          end
      | _ => FetchPanic
      end
  | inr _ =>
      FetchError ("unexpected response type checking consensus on backend "
                    ++ Name w be)
  end.

(** [UpdateBackend]: the poller after the refresh, and the block number
    handed to [RecordBackendLatestBlock] when the state changed. *)
Definition UpdateBackend (w : World) (cp : ConsensusPoller) (be : Backend)
  : result (ConsensusPoller * option Z) :=
  match backendStates cp !! be with
  | None => Panic
  | Some bs =>
      if now w <? bannedUntil bs then Ok (cp, None)
      else if IsRateLimited w be || negb (Online w be) then Ok (cp, None)
      else
        match fetchBlock w be "latest" with
        | FetchPanic => Panic
        | FetchError _ => Ok (cp, None)
        | Fetched latestNumber latestHash =>
            match setBackendState w cp be latestNumber latestHash with
            | Panic => Panic
            | Ok (cp', changed) =>
                Ok (cp', if changed then Some latestNumber else None)
            end
        end
  end.

(** The first loop of [UpdateBackendGroupConsensus], from the values
    [lowestBlock] and [lowestBlockHash] have on entry. *)
Fixpoint lowest (cp : ConsensusPoller) (bes : list Backend)
    (lowestBlock : Z) (lowestBlockHash : string) : result (Z * string) :=
  match bes with
  | [] => Ok (lowestBlock, lowestBlockHash)
  | be :: rest =>
      match getBackendState cp be with
      | Panic => Panic
      | Ok (backendLatestBlockNumber, backendLatestBlockHash) =>
          if (lowestBlock =? 0) || (backendLatestBlockNumber <? lowestBlock)
          then lowest cp rest backendLatestBlockNumber backendLatestBlockHash
          else lowest cp rest lowestBlock lowestBlockHash
      end
  end.

(** The condition under which a round passes a backend over:
    [be.IsRateLimited() || !be.Online() ||
     time.Now().Before(cp.backendState[be].bannedUntil)]. *)
Definition filtered (w : World) (cp : ConsensusPoller) (be : Backend)
  : result bool :=
  if IsRateLimited w be || negb (Online w be) then Ok true
  else
    match backendStates cp !! be with
    | Some bs => Ok (now w <? bannedUntil bs)
    | None => Panic
    end.

(** One round: the loop over the backends of the group. *)
Fixpoint check (w : World) (cp : ConsensusPoller)
    (currentConsensusBlockNumber : Z) (bes : list Backend) (l : locals)
  : result locals :=
  match bes with
  | [] => Ok l
  | be :: rest =>
      match filtered w cp be with
      | Panic => Panic
      | Ok true =>
          check w cp currentConsensusBlockNumber rest (filter_out (Name w be) l)
      | Ok false =>
          match fetchBlock w be (Uint64String (proposedBlock l)) with
          | FetchPanic => Panic
          | FetchError _ => check w cp currentConsensusBlockNumber rest l
          | Fetched actualBlockNumber actualBlockHash =>
              let hash :=
                if String.eqb (proposedBlockHash l) "" then actualBlockHash
                else proposedBlockHash l in
              let blocksDontMatch :=
                negb (actualBlockNumber =? proposedBlock l)
                || negb (String.eqb actualBlockHash hash) in
              if blocksDontMatch then
                Ok (disagreeing
                      (currentConsensusBlockNumber >=? actualBlockNumber)
                      hash l)
              else
                check w cp currentConsensusBlockNumber rest
                      (agreeing be (Name w be) hash l)
          end
      end
  end.

(** [for !hasConsensus { ... }], on fuel. *)
Fixpoint seek (fuel : nat) (w : World) (cp : ConsensusPoller)
    (currentConsensusBlockNumber : Z) (l : locals) : option (result locals) :=
  match fuel with
  | O => None
  | S fuel' =>
      match check w cp currentConsensusBlockNumber (backendGroup cp)
                  (begin_round l) with
      | Panic => Some Panic
      | Ok l' =>
          if allAgreed l' then Some (Ok l')
          else seek fuel' w cp currentConsensusBlockNumber (walk_back l')
      end
  end.

(** What the function publishes at its end. *)
Definition publish (cp : ConsensusPoller) (l : locals) : ConsensusPoller :=
  mkPoller (backendGroup cp) (backendStates cp) (consensusBackends l)
           (tracker_SetConsensusBlockNumber (proposedBlock l) (tracker cp)).

(** [UpdateBackendGroupConsensus]: the poller it leaves, with the final
    values of the local variables when it went through the loop, and
    without them ([None]) when it returned on [lowestBlock == 0]. *)
Definition UpdateBackendGroupConsensus (fuel : nat) (w : World)
    (cp : ConsensusPoller) : option (result (ConsensusPoller * option locals)) :=
  let currentConsensusBlockNumber := GetConsensusBlockNumber cp in
  match lowest cp (backendGroup cp) 0 "" with
  | Panic => Some Panic
  | Ok (lowestBlock, lowestBlockHash) =>
      if lowestBlock =? 0 then Some (Ok (cp, None))
      else
        match seek fuel w cp currentConsensusBlockNumber
                   (mkLocals lowestBlock lowestBlockHash [] [] [] false false) with
        | None => None
        | Some Panic => Some Panic
        | Some (Ok l) => Some (Ok (publish cp l, Some l))
        end
  end.

End Poller.

(** ** Notions used to state the properties *)

(** A backend the rounds do not pass over: not rate limited, online and not
    banned. *)
Definition live (w : World) (cp : ConsensusPoller) (be : Backend) : bool :=
  match filtered w cp be with
  | Ok false => true
  | _ => false
  end.

(** The local variables on entry to round [k] (counted from zero) of a loop
    entered with [l]: defined when each of the [k] rounds before ended in
    disagreement. *)
Fixpoint locals_after (decode : string -> option Z) (encode : Z -> string)
    (k : nat) (w : World) (cp : ConsensusPoller) (current : Z) (l : locals)
  : option locals :=
  match k with
  | O => Some l
  | S k' =>
      match check decode encode w cp current (backendGroup cp) (begin_round l) with
      | Ok l' =>
          if allAgreed l' then None
          else locals_after decode encode k' w cp current (walk_back l')
      | Panic => None
      end
  end.

(** In the round entered with [l], the backend [be] is reached with every
    backend before it passed over, in error or agreeing, it is live, and the
    block [(n, h)] it answers with does not match the proposed one. *)
Definition found_disagreeing (decode : string -> option Z) (encode : Z -> string)
    (w : World) (cp : ConsensusPoller) (current : Z) (l : locals)
    (be : Backend) (n : Z) (h : string) : Prop :=
  exists before after reached,
    backendGroup cp = (before ++ be :: after)%list
    /\ check decode encode w cp current before (begin_round l) = Ok reached
    /\ allAgreed reached = true
    /\ filtered w cp be = Ok false
    /\ fetchBlock decode w be (encode (proposedBlock reached)) = Fetched n h
    /\ (n <> proposedBlock reached
        \/ h <> (if String.eqb (proposedBlockHash reached) "" then h
                 else proposedBlockHash reached)).

(** A backend a round at [height] does not compare: passed over, or live
    with a fetch that returns an error. *)
Definition skipped (decode : string -> option Z) (encode : Z -> string)
    (w : World) (cp : ConsensusPoller) (be : Backend) (height : Z) : Prop :=
  filtered w cp be = Ok true
  \/ (filtered w cp be = Ok false
      /\ exists err, fetchBlock decode w be (encode height) = FetchError err).

(** A backend that is passed over, or live and answering the query at
    [height] with the block [(height, hash)]. *)
Definition confirms (decode : string -> option Z) (encode : Z -> string)
    (w : World) (cp : ConsensusPoller) (be : Backend) (height : Z)
    (hash : string) : Prop :=
  filtered w cp be = Ok true
  \/ (filtered w cp be = Ok false
      /\ fetchBlock decode w be (encode height) = Fetched height hash).

(** Every backend of the group has a state: what [NewConsensusPoller]
    sets up, and what the reads of [cp.backendState[be]] rely on. *)
Definition states_cover_group (cp : ConsensusPoller) : Prop :=
  forall be, be ∈ backendGroup cp -> is_Some (backendStates cp !! be).

(** A backend a round at [height] compares: live, with a fetch that
    returns a block. *)
Definition answered (decode : string -> option Z) (encode : Z -> string)
    (w : World) (cp : ConsensusPoller) (height : Z) (be : Backend) : bool :=
  live w cp be
  && match fetchBlock decode w be (encode height) with
     | Fetched _ _ => true
     | _ => false
     end.

(** A backend [UpdateBackend] leaves alone: banned, rate limited or
    offline. *)
Definition refresh_skipped (w : World) (bs : backendState) (be : Backend)
  : bool :=
  (now w <? bannedUntil bs) || IsRateLimited w be || negb (Online w be).

(** Every backend in [consensusBackends] answered the query at the proposed
    height with a block of that height, whose hash is the proposed hash or
    the empty string. *)
Definition members_agree (decode : string -> option Z) (encode : Z -> string)
    (w : World) (l : locals) : Prop :=
  forall be, be ∈ consensusBackends l ->
    exists hash,
      fetchBlock decode w be (encode (proposedBlock l))
      = Fetched (proposedBlock l) hash
      /\ (hash = proposedBlockHash l \/ hash = "").


(** Local variables with [broken] put aside, to compare two runs in
    everything else. *)
Definition without_broken (l : locals) : locals :=
  mkLocals (proposedBlock l) (proposedBlockHash l) (consensusBackends l)
           (consensusBackendsNames l) (filteredBackendsNames l) false
           (allAgreed l).

Definition result_map {A B : Type} (f : A -> B) (r : result A) : result B :=
  match r with
  | Ok a => Ok (f a)
  | Panic => Panic
  end.

(** The local variables with which the loop is entered. *)
Definition entry (lowestBlock : Z) (lowestBlockHash : string) : locals :=
  mkLocals lowestBlock lowestBlockHash [] [] [] false false.

(** ** Concrete backends and pollers

    The inputs on which the functions are evaluated further down.  Backends
    are numbered from 1; [block n h] is the response a node gives for the
    block of height [n] and hash [h]. *)

Definition block (n : Z) (h : string) : string + any :=
  inr (Map [("number", Str (hexutil.String n)); ("hash", Str h)]).

Definition recorded (n : Z) (h : string) : backendState :=
  mkBackendState n h 0 0.

Definition poller (bg : list Backend) (states : list (Backend * backendState))
    (group : list Backend) (height : Z) : ConsensusPoller :=
  mkPoller bg (list_to_map states) group (mkTracker height).

Definition backend_name (be : Backend) : string :=
  match be with
  | 1%positive => "node-a"
  | 2%positive => "node-b"
  | _ => "node-c"
  end.

(** Every backend is online and none is rate limited; [rpc] gives the
    responses. *)
Definition all_live
    (rpc : Backend -> string -> string -> string -> bool -> string + any) : World :=
  mkWorld backend_name (fun _ => false) (fun _ => true) rpc 10.

(** As [all_live], but the backend [off] is offline. *)
Definition one_offline (off : Backend)
    (rpc : Backend -> string -> string -> string -> bool -> string + any) : World :=
  mkWorld backend_name (fun _ => false) (fun be => negb (Pos.eqb be off)) rpc 10.

(** The cycle with go-ethereum's [hexutil]. *)
Definition cycle : nat -> World -> ConsensusPoller ->
                   option (result (ConsensusPoller * option locals)) :=
  UpdateBackendGroupConsensus hexutil.MustDecodeUint64 hexutil.String.

(** *** A group of two backends of which one agrees *)
Definition cp_short_group : ConsensusPoller :=
  poller [1; 2]%positive
         [(1%positive, recorded 100 "0xaa"); (2%positive, recorded 100 "0xbb")]
         [1%positive] 100.

(** *** A backend that has no data yet, at different places of the group *)
Definition states_one_cold : list (Backend * backendState) :=
  [(1%positive, recorded 5 "0x05"); (2%positive, recorded 0 "");
   (3%positive, recorded 7 "0x07")].

Definition cp_cold_last : ConsensusPoller :=
  poller [1; 3; 2]%positive states_one_cold [] 0.
Definition cp_cold_middle : ConsensusPoller :=
  poller [1; 2; 3]%positive states_one_cold [] 0.
Definition cp_cold_first : ConsensusPoller :=
  poller [2; 1; 3]%positive states_one_cold [] 0.

(** *** All backends cold *)
Definition cp_all_cold : ConsensusPoller :=
  poller [1; 2]%positive
         [(1%positive, recorded 0 ""); (2%positive, recorded 0 "")]
         [2%positive] 42.

(** *** Three backends on the same block, the third offline *)
Definition w_third_offline : World :=
  one_offline 3%positive (fun _ _ _ _ _ => block 100 "0xaa").

Definition cp_same_block : ConsensusPoller :=
  poller [1; 2; 3]%positive
         [(1%positive, recorded 100 "0xaa"); (2%positive, recorded 100 "0xaa");
          (3%positive, recorded 100 "0xaa")]
         [] 0.

(** *** A live backend at block 100 and an offline one left at block 50 *)
Definition w_stale_offline : World :=
  one_offline 2%positive
    (fun _ _ _ tag _ =>
       if String.eqb tag "0x64" then block 100 "0xaa"
       else if String.eqb tag "0x32" then block 50 "0x50"
       else inr Nil).

Definition cp_stale_offline : ConsensusPoller :=
  poller [1; 2]%positive
         [(1%positive, recorded 100 "0xaa"); (2%positive, recorded 50 "0x50")]
         [] 0.

(** *** Two backends that differ at block 100 and have nothing below *)
Definition w_fork_then_nothing : World :=
  all_live
    (fun be _ _ tag _ =>
       if String.eqb tag "0x64"
       then block 100 (if Pos.eqb be 1 then "0xaa" else "0xbb")
       else inr Nil).

Definition cp_fork : ConsensusPoller :=
  poller [1; 2]%positive
         [(1%positive, recorded 100 "0xaa"); (2%positive, recorded 100 "0xbb")]
         [1; 2]%positive 0.

(** *** A backend that agreed, fell back to the genesis block and went
    offline *)
Definition w_up : World := all_live (fun _ _ _ _ _ => block 100 "0xaa").
Definition w_resynced : World := all_live (fun _ _ _ _ _ => block 0 "0x00").
Definition w_down : World :=
  one_offline 1%positive (fun _ _ _ _ _ => inl "connection refused").

(** *** Two live backends that answer every query with their latest
    block, and differ on its hash *)
Definition w_split : World :=
  all_live (fun be _ _ _ _ => block 1 (if Pos.eqb be 1 then "0xa1" else "0xb2")).

Definition cp_split : ConsensusPoller :=
  poller [1; 2]%positive
         [(1%positive, recorded 1 "0xa1"); (2%positive, recorded 1 "0xb2")]
         [] 0.

(** *** Consensus published at block 100; the second backend turns out to
    hold another block 100, and both hold the same block 99 *)
Definition w_reorg : World :=
  all_live
    (fun be _ _ tag _ =>
       if String.eqb tag "0x64"
       then block 100 (if Pos.eqb be 1 then "0xaa" else "0xbb")
       else if String.eqb tag "0x63" then block 99 "0x99"
       else inr Nil).

Definition cp_reorg : ConsensusPoller :=
  poller [1; 2]%positive
         [(1%positive, recorded 100 "0xaa"); (2%positive, recorded 100 "0xbb")]
         [1; 2]%positive 100.





(** *** A poller just built, and the same after its backend was refreshed
    from a node at block 100 *)
Definition cp_new : ConsensusPoller :=
  NewConsensusPoller [1%positive] (mkTracker 0).

Definition cp_refreshed : ConsensusPoller :=
  mkPoller [1%positive]
    (<[1%positive := mkBackendState 100 "0xaa" 10 0]> (backendStates cp_new))
    [] (mkTracker 0).

(** *** Two live backends: the first answers every query with an empty
    hash, the second with a hash of its own *)
Definition w_empty_hash : World :=
  all_live
    (fun be _ _ tag _ =>
       if String.eqb tag "0x64"
       then block 100 (if Pos.eqb be 1 then "" else "0xbb")
       else inr Nil).

Definition cp_empty_hash : ConsensusPoller :=
  poller [1; 2]%positive
         [(1%positive, recorded 100 ""); (2%positive, recorded 100 "0xbb")]
         [] 0.

(** *** What the cycle leaves of [cp_same_block] in [w_third_offline] *)
Definition l_same_block : locals :=
  mkLocals 100 "0xaa" [1; 2]%positive ["node-a"; "node-b"] ["node-c"]
           false true.

Definition cp_same_block_published : ConsensusPoller :=
  publish cp_same_block l_same_block.

(** * Properties *)

(** ** Backend state accessors *)

(** C7. For a backend with a state and any incoming height and hash,
    [setBackendState] reports [changed = true] exactly when the incoming
    hash differs from the stored one, whatever the heights are, and the
    state it leaves for that backend holds the incoming height, the incoming
    hash and the current time as [lastUpdate] (with [bannedUntil] as it
    was); the states of the other backends, the group and the tracker are
    untouched. *)
Theorem setBackendState_changed_iff_hash_differs
    (w : World) (cp : ConsensusPoller) (be : Backend) (bs : backendState)
    (blockNumber : Z) (blockHash : string) :
  backendStates cp !! be = Some bs ->
  exists cp' changed,
    setBackendState w cp be blockNumber blockHash = Ok (cp', changed)
    /\ (changed = true <-> latestBlockHash bs <> blockHash)
    /\ backendStates cp' !! be
       = Some (mkBackendState blockNumber blockHash (now w) (bannedUntil bs))
    /\ (forall other, other <> be ->
          backendStates cp' !! other = backendStates cp !! other)
    /\ backendGroup cp' = backendGroup cp
    /\ consensusGroup cp' = consensusGroup cp
    /\ tracker cp' = tracker cp.
Proof.
  intros Hbs. unfold setBackendState. rewrite Hbs.
  eexists _, _. split; [reflexivity|]. cbn.
  repeat split; try reflexivity.
  - intros Hc Heq. apply String.eqb_eq in Heq. rewrite Heq in Hc. discriminate.
  - intros Hne. destruct (String.eqb_spec (latestBlockHash bs) blockHash) as [E|E];
      [contradiction|reflexivity].
  - apply lookup_insert_eq.
  - intros other Hne. apply lookup_insert_ne. congruence.
Qed.

Lemma setBackendState_changed_iff_hash_differs_witness :
  exists cp' changed,
    setBackendState (all_live (fun _ _ _ _ _ => block 100 "0xaa"))
                    cp_short_group 2%positive 101 "0xbb" = Ok (cp', changed)
    /\ (changed = true <-> latestBlockHash (recorded 100 "0xbb") <> "0xbb")
    /\ backendStates cp' !! 2%positive
       = Some (mkBackendState 101 "0xbb" 10 0)
    /\ (forall other, other <> 2%positive ->
          backendStates cp' !! other = backendStates cp_short_group !! other)
    /\ backendGroup cp' = backendGroup cp_short_group
    /\ consensusGroup cp' = consensusGroup cp_short_group
    /\ tracker cp' = tracker cp_short_group.
Proof.
  apply (setBackendState_changed_iff_hash_differs
           (all_live (fun _ _ _ _ _ => block 100 "0xaa"))
           cp_short_group 2%positive (recorded 100 "0xbb") 101 "0xbb").
  vm_compute. reflexivity.
Defined.

(** [GetConsensusGroup] is always as long as the backend group. *)
Lemma GetConsensusGroup_length (cp : ConsensusPoller) :
  (length (consensusGroup cp) <= length (backendGroup cp))%nat ->
  length (GetConsensusGroup cp) = length (backendGroup cp).
Proof.
  intros Hle. unfold GetConsensusGroup, copy.
  rewrite length_app, length_take, length_drop, !length_replicate, length_fmap.
  lia.
Qed.

(** What [GetConsensusGroup] returns: the published group followed by one
    nil pointer for each backend of the group that is not in it. *)
Lemma GetConsensusGroup_padded (cp : ConsensusPoller) :
  (length (consensusGroup cp) <= length (backendGroup cp))%nat ->
  GetConsensusGroup cp
  = ((Some <$> consensusGroup cp)
     ++ replicate (length (backendGroup cp) - length (consensusGroup cp))%nat
                  None)%list.
Proof.
  intros Hle. unfold GetConsensusGroup, copy.
  rewrite length_replicate, length_fmap, Nat.min_r by lia.
  rewrite firstn_all2 by (rewrite length_fmap; lia).
  rewrite drop_replicate. reflexivity.
Qed.

(** C1. With two backends in the group and only the first of them in the
    published consensus group, [GetConsensusGroup] returns two elements, the
    first backend and a nil pointer: not the published group. *)
Theorem GetConsensusGroup_pads_with_nil :
  consensusGroup cp_short_group = [1%positive]
  /\ GetConsensusGroup cp_short_group = [Some 1%positive; None]
  /\ GetConsensusGroup cp_short_group <> (Some <$> consensusGroup cp_short_group)
  /\ length (GetConsensusGroup cp_short_group)
     <> length (consensusGroup cp_short_group).
Proof.
  repeat split; try reflexivity; vm_compute; discriminate.
Qed.

(** ** The baseline of a cycle *)

(** When every backend of the group records height zero the scan ends on
    zero. *)
Lemma lowest_all_zero (cp : ConsensusPoller) (bes : list Backend) :
  (forall be, be ∈ bes ->
     exists bs, backendStates cp !! be = Some bs /\ latestBlockNumber bs = 0) ->
  forall h0, exists h, lowest cp bes 0 h0 = Ok (0, h).
Proof.
  induction bes as [|be rest IH]; intros Hzero h0; cbn [lowest].
  - eexists; reflexivity.
  - destruct (Hzero be) as (bs & Hbs & Hn); [left|].
    unfold getBackendState. rewrite Hbs, Hn. cbn.
    apply IH. intros be' Hin. apply Hzero. right. exact Hin.
Qed.

(** C8. If every backend of the group records height zero, a cycle returns
    the poller as it received it, for any fuel, any world and any [hexutil]:
    the tracker's value and the published group are unchanged. *)
Theorem UpdateBackendGroupConsensus_no_data_no_change
    (decode : string -> option Z) (encode : Z -> string)
    (fuel : nat) (w : World) (cp : ConsensusPoller) :
  (forall be, be ∈ backendGroup cp ->
     exists bs, backendStates cp !! be = Some bs /\ latestBlockNumber bs = 0) ->
  exists cp',
    UpdateBackendGroupConsensus decode encode fuel w cp = Some (Ok (cp', None))
    /\ cp' = cp
    /\ GetConsensusBlockNumber cp' = GetConsensusBlockNumber cp
    /\ consensusGroup cp' = consensusGroup cp.
Proof.
  intros Hzero. exists cp. repeat split.
  unfold UpdateBackendGroupConsensus.
  destruct (lowest_all_zero cp (backendGroup cp) Hzero "") as [h ->].
  reflexivity.
Qed.

Lemma UpdateBackendGroupConsensus_no_data_no_change_witness :
  exists cp',
    cycle 3 (all_live (fun _ _ _ _ _ => block 100 "0xaa")) cp_all_cold
    = Some (Ok (cp', None))
    /\ cp' = cp_all_cold
    /\ GetConsensusBlockNumber cp' = GetConsensusBlockNumber cp_all_cold
    /\ consensusGroup cp' = consensusGroup cp_all_cold.
Proof.
  apply (UpdateBackendGroupConsensus_no_data_no_change
           hexutil.MustDecodeUint64 hexutil.String 3
           (all_live (fun _ _ _ _ _ => block 100 "0xaa")) cp_all_cold).
  intros be Hin.
  repeat (apply elem_of_cons in Hin as [-> | Hin]);
    [eexists; split; vm_compute; reflexivity ..
    | apply elem_of_nil in Hin; contradiction].
Defined.

(** From a baseline already set, the scan over backends that all have data
    ends on the smallest height met, with the hash that came with it. *)
Lemma lowest_from_set (cp : ConsensusPoller) (bes : list Backend) :
  (forall be, be ∈ bes ->
     exists bs, backendStates cp !! be = Some bs /\ 0 < latestBlockNumber bs) ->
  forall n0 h0, 0 < n0 ->
    exists n h,
      lowest cp bes n0 h0 = Ok (n, h)
      /\ 0 < n <= n0
      /\ (forall be bs, be ∈ bes -> backendStates cp !! be = Some bs ->
                        n <= latestBlockNumber bs)
      /\ ((n = n0 /\ h = h0)
          \/ exists be bs, be ∈ bes /\ backendStates cp !! be = Some bs
                           /\ latestBlockNumber bs = n
                           /\ latestBlockHash bs = h).
Proof.
  induction bes as [|b rest IH]; intros Hdata n0 h0 Hpos; cbn [lowest].
  - exists n0, h0. split; [reflexivity|]. split; [lia|]. split.
    + intros be bs Hin. apply elem_of_nil in Hin. contradiction.
    + left. split; reflexivity.
  - destruct (Hdata b) as (bs0 & Hb & Hb0); [left|].
    assert (Hrest : forall be, be ∈ rest ->
              exists bs, backendStates cp !! be = Some bs
                         /\ 0 < latestBlockNumber bs).
    { intros be Hin. apply Hdata. right. exact Hin. }
    unfold getBackendState. rewrite Hb.
    destruct (Z.eqb_spec n0 0) as [E|_]; [lia|]. cbn [orb].
    destruct (Z.ltb_spec (latestBlockNumber bs0) n0) as [Hlt|Hge].
    + destruct (IH Hrest (latestBlockNumber bs0) (latestBlockHash bs0) Hb0)
        as (n & h & Hlow & Hrange & Hmin & Horigin).
      exists n, h. split; [exact Hlow|]. split; [lia|]. split.
      * intros be bs Hin Hbs. apply elem_of_cons in Hin as [->|Hin].
        -- rewrite Hb in Hbs. inversion Hbs; subst. lia.
        -- eapply Hmin; eassumption.
      * right. destruct Horigin as [[-> ->]|(be & bs & Hin & Hbs & Hn & Hh)].
        -- exists b, bs0. repeat split; [left|assumption].
        -- exists be, bs. repeat split; [right|..]; assumption.
    + destruct (IH Hrest n0 h0 Hpos) as (n & h & Hlow & Hrange & Hmin & Horigin).
      exists n, h. split; [exact Hlow|]. split; [lia|]. split.
      * intros be bs Hin Hbs. apply elem_of_cons in Hin as [->|Hin].
        -- rewrite Hb in Hbs. inversion Hbs; subst. lia.
        -- eapply Hmin; eassumption.
      * destruct Horigin as [Hsame|(be & bs & Hin & Hbs & Hn & Hh)].
        -- left. exact Hsame.
        -- right. exists be, bs. repeat split; [right|..]; assumption.
Qed.

(** When every backend of a group that is not empty has data, the baseline
    is the minimum of the recorded heights, with the hash of a backend that
    records it. *)
Lemma lowest_is_minimum_with_data (cp : ConsensusPoller) (bes : list Backend) :
  bes <> [] ->
  (forall be, be ∈ bes ->
     exists bs, backendStates cp !! be = Some bs /\ 0 < latestBlockNumber bs) ->
  exists n h,
    lowest cp bes 0 "" = Ok (n, h)
    /\ 0 < n
    /\ (forall be bs, be ∈ bes -> backendStates cp !! be = Some bs ->
                      n <= latestBlockNumber bs)
    /\ exists be bs, be ∈ bes /\ backendStates cp !! be = Some bs
                     /\ latestBlockNumber bs = n /\ latestBlockHash bs = h.
Proof.
  destruct bes as [|b rest]; intros Hne Hdata; [contradiction|].
  cbn [lowest].
  destruct (Hdata b) as (bs0 & Hb & Hb0); [left|].
  unfold getBackendState. rewrite Hb. cbn [Z.eqb orb].
  destruct (lowest_from_set cp rest) with
    (n0 := latestBlockNumber bs0) (h0 := latestBlockHash bs0)
    as (n & h & Hlow & Hrange & Hmin & Horigin).
  { intros be Hin. apply Hdata. right. exact Hin. }
  { exact Hb0. }
  exists n, h. split; [exact Hlow|]. split; [lia|]. split.
  - intros be bs Hin Hbs. apply elem_of_cons in Hin as [->|Hin].
    + rewrite Hb in Hbs. inversion Hbs; subst. lia.
    + eapply Hmin; eassumption.
  - destruct Horigin as [[-> ->]|(be & bs & Hin & Hbs & Hn & Hh)].
    + exists b, bs0. repeat split; [left|assumption].
    + exists be, bs. repeat split; [right|..]; assumption.
Qed.

(** C2. The same three recorded heights, 5, 0 and 7, give three baselines
    according to where the backend without data stands in the group: 7 when
    it is in the middle, 5 when it is first, and 0 when it is last.  None of
    the first two is the minimum of the heights, and with the third the
    cycle returns without resolving anything although two backends have
    data. *)
Theorem lowest_depends_on_scan_order :
  lowest cp_cold_middle (backendGroup cp_cold_middle) 0 "" = Ok (7, "0x07")
  /\ lowest cp_cold_first (backendGroup cp_cold_first) 0 "" = Ok (5, "0x05")
  /\ lowest cp_cold_last (backendGroup cp_cold_last) 0 "" = Ok (0, "")
  /\ (forall fuel w, cycle fuel w cp_cold_last = Some (Ok (cp_cold_last, None)))
  /\ backendStates cp_cold_last !! 1%positive = Some (recorded 5 "0x05")
  /\ backendStates cp_cold_last !! 3%positive = Some (recorded 7 "0x07").
Proof.
  repeat split; try (vm_compute; reflexivity).
Qed.

(** ** Fetcher *)

(** C3. A response whose result is a record without the height field makes
    [fetchBlock] panic, whatever the backend, the block asked for and the
    [hexutil] decoder are; so do a record without the hash field and a
    height that is not hexadecimal.  A result that is not a record gives an
    error value. *)
Theorem fetchBlock_panics_on_malformed_record
    (decode : string -> option Z) (be : Backend) (tag : string) :
  fetchBlock decode
    (all_live (fun _ _ _ _ _ => inr (Map [("hash", Str "0xaa")]))) be tag
  = FetchPanic
  /\ fetchBlock decode
       (all_live (fun _ _ _ _ _ => inr (Map [("number", Float64 "100");
                                              ("hash", Str "0xaa")]))) be tag
     = FetchPanic
  /\ fetchBlock hexutil.MustDecodeUint64
       (all_live (fun _ _ _ _ _ => inr (Map [("number", Str "0x64")]))) be tag
     = FetchPanic
  /\ fetchBlock hexutil.MustDecodeUint64
       (all_live (fun _ _ _ _ _ => inr (Map [("number", Str "100");
                                              ("hash", Str "0xaa")]))) be tag
     = FetchPanic
  /\ fetchBlock decode (all_live (fun _ _ _ _ _ => inr Nil)) be tag
     = FetchError ("unexpected response type checking consensus on backend "
                     ++ backend_name be).
Proof.
  repeat split; reflexivity.
Qed.

(** ** Rounds of the agreement-seeking loop *)

Section Rounds.

Variable decode : string -> option Z.
Variable encode : Z -> string.
Variable w : World.
Variable cp : ConsensusPoller.
Variable current : Z.

Local Abbreviation check' := (check decode encode w cp current).

(** A round never changes the proposed block. *)
Lemma check_proposedBlock (bes : list Backend) :
  forall l l', check' bes l = Ok l' -> proposedBlock l' = proposedBlock l.
Proof.
  induction bes as [|be rest IH]; intros l l' H; cbn [check] in H.
  - congruence.
  - destruct (filtered w cp be) as [[|]|]; [| |discriminate].
    + apply IH in H. exact H.
    + destruct (fetchBlock decode w be (encode (proposedBlock l)))
        as [n h|e|]; [| |discriminate].
      * destruct (negb (n =? proposedBlock l) || _).
        -- inversion H; reflexivity.
        -- apply IH in H. exact H.
      * apply IH in H. exact H.
Qed.

(** A round that ends with [allAgreed] still true leaves [broken] alone. *)
Lemma check_agreed_broken (bes : list Backend) :
  forall l l', check' bes l = Ok l' -> allAgreed l' = true ->
               broken l' = broken l /\ allAgreed l = true.
Proof.
  induction bes as [|be rest IH]; intros l l' H Hall; cbn [check] in H.
  - inversion H; subst. auto.
  - destruct (filtered w cp be) as [[|]|]; [| |discriminate].
    + apply IH in H; auto.
    + destruct (fetchBlock decode w be (encode (proposedBlock l)))
        as [n h|e|]; [| |discriminate].
      * destruct (negb (n =? proposedBlock l) || _).
        -- inversion H; subst. discriminate.
        -- apply IH in H; auto.
      * apply IH in H; auto.
Qed.

(** Only live backends of the scanned list join [consensusBackends]. *)
Lemma check_consensusBackends (bes : list Backend) :
  forall l l' be,
    check' bes l = Ok l' -> be ∈ consensusBackends l' ->
    be ∈ consensusBackends l \/ (be ∈ bes /\ filtered w cp be = Ok false).
Proof.
  induction bes as [|b rest IH]; intros l l' be H Hin; cbn [check] in H.
  - inversion H; subst. left. exact Hin.
  - destruct (filtered w cp b) as [[|]|] eqn:Hf; [| |discriminate].
    + destruct (IH _ _ _ H Hin) as [Hl|[Hr Hlive]].
      * left. exact Hl.
      * right. split; [right; exact Hr|exact Hlive].
    + destruct (fetchBlock decode w b (encode (proposedBlock l)))
        as [n h|e|]; [| |discriminate].
      * destruct (negb (n =? proposedBlock l) || _).
        -- inversion H; subst. left. exact Hin.
        -- destruct (IH _ _ _ H Hin) as [Hl|[Hr Hlive]].
           ++ cbn in Hl. apply elem_of_app in Hl as [Hl|Hl].
              ** left. exact Hl.
              ** apply list_elem_of_singleton in Hl. subst.
                 right. split; [left|exact Hf].
           ++ right. split; [right; exact Hr|exact Hlive].
      * destruct (IH _ _ _ H Hin) as [Hl|[Hr Hlive]].
        -- left. exact Hl.
        -- right. split; [right; exact Hr|exact Hlive].
Qed.

(** The loop ends on a round in agreement, and its group holds live backends
    of the backend group only. *)
Lemma seek_agreed (fuel : nat) :
  forall l l', seek decode encode fuel w cp current l = Some (Ok l') ->
    allAgreed l' = true
    /\ forall be, be ∈ consensusBackends l' ->
                  be ∈ backendGroup cp /\ filtered w cp be = Ok false.
Proof.
  induction fuel as [|fuel IH]; intros l l' H; cbn in H; [discriminate|].
  destruct (check' (backendGroup cp) (begin_round l)) as [l1|] eqn:Hc;
    [|discriminate].
  destruct (allAgreed l1) eqn:Hall.
  - inversion H; subst. split; [exact Hall|].
    intros be Hin.
    destruct (check_consensusBackends _ _ _ _ Hc Hin) as [Hl|Hr].
    + cbn in Hl. apply elem_of_nil in Hl. contradiction.
    + exact Hr.
  - apply IH in H. exact H.
Qed.

(** The first [k] rounds being known to fail, the loop is where round [k]
    starts. *)
Lemma seek_after (k : nat) :
  forall fuel l lk,
    locals_after decode encode k w cp current l = Some lk ->
    seek decode encode (k + fuel) w cp current l
    = seek decode encode fuel w cp current lk.
Proof.
  induction k as [|k IH]; intros fuel l lk H; cbn in H.
  - inversion H; reflexivity.
  - cbn. destruct (check' (backendGroup cp) (begin_round l)) as [l1|];
      [|discriminate].
    destruct (allAgreed l1); [discriminate|].
    apply IH. exact H.
Qed.

(** The loop ends as soon as a round ends in agreement: with the first [k]
    rounds in disagreement and round [k] in agreement, [k + 1] rounds of
    fuel, or more, give the result. *)
Lemma seek_ends (k fuel : nat) (l lk l' : locals) :
  locals_after decode encode k w cp current l = Some lk ->
  check' (backendGroup cp) (begin_round lk) = Ok l' ->
  allAgreed l' = true ->
  seek decode encode (k + S fuel) w cp current l = Some (Ok l').
Proof.
  intros Hk Hc Hall.
  rewrite (seek_after k (S fuel) l lk Hk).
  cbn [seek]. rewrite Hc, Hall. reflexivity.
Qed.

(** Each round in disagreement lowers the proposed block by one, modulo
    [2^64]. *)
Lemma locals_after_proposedBlock (k : nat) :
  forall l lk,
    locals_after decode encode k w cp current l = Some lk ->
    proposedBlock lk = Nat.iter k dec64 (proposedBlock l).
Proof.
  induction k as [|k IH]; intros l lk H.
  - inversion H; reflexivity.
  - cbn [locals_after] in H.
    destruct (check' (backendGroup cp) (begin_round l)) as [l1|] eqn:Hc;
      [|discriminate].
    destruct (allAgreed l1); [discriminate|].
    apply IH in H. rewrite H. cbn [walk_back proposedBlock].
    rewrite (check_proposedBlock _ _ _ Hc). cbn [begin_round proposedBlock].
    rewrite Nat.iter_succ_r. reflexivity.
Qed.

End Rounds.

Section Agreement.

Variable decode : string -> option Z.
Variable encode : Z -> string.
Variable w : World.
Variable cp : ConsensusPoller.
Variable current : Z.

Local Abbreviation check' := (check decode encode w cp current).
Local Abbreviation skipped' := (skipped decode encode w cp).
Local Abbreviation confirms' := (confirms decode encode w cp).

(** A round in which every backend is skipped touches nothing but the names
    of the backends it passed over. *)
Lemma check_all_skipped (bes : list Backend) :
  forall l,
    (forall be, be ∈ bes -> skipped' be (proposedBlock l)) ->
    exists l',
      check' bes l = Ok l'
      /\ proposedBlock l' = proposedBlock l
      /\ proposedBlockHash l' = proposedBlockHash l
      /\ consensusBackends l' = consensusBackends l
      /\ broken l' = broken l
      /\ allAgreed l' = allAgreed l.
Proof.
  induction bes as [|be rest IH]; intros l Hskip; cbn [check].
  - exists l. repeat split.
  - assert (Hrest : forall l0, proposedBlock l0 = proposedBlock l ->
                      forall b, b ∈ rest -> skipped' b (proposedBlock l0)).
    { intros l0 E b Hb. rewrite E. apply Hskip. right. exact Hb. }
    destruct (Hskip be) as [Hf|[Hf [err He]]]; [left| |]; rewrite Hf.
    + destruct (IH (filter_out (Name w be) l) (Hrest _ eq_refl))
        as (l' & Hc & H1 & H2 & H3 & H4 & H5).
      exists l'. repeat split; assumption.
    + rewrite He. apply IH. apply Hrest. reflexivity.
Qed.

(** A round in which every live backend answers with the proposed block,
    the proposed hash being that block's hash or still empty, ends in
    agreement with exactly the live backends, in the order of the list. *)
Lemma check_unanimous (hash : string) (bes : list Backend) :
  forall l,
    (forall be, be ∈ bes -> confirms' be (proposedBlock l) hash) ->
    proposedBlockHash l = hash \/ proposedBlockHash l = "" ->
    exists l',
      check' bes l = Ok l'
      /\ proposedBlock l' = proposedBlock l
      /\ consensusBackends l'
         = (consensusBackends l ++ List.filter (live w cp) bes)%list
      /\ broken l' = broken l
      /\ allAgreed l' = allAgreed l.
Proof.
  induction bes as [|be rest IH]; intros l Hconf Hhash; cbn [check List.filter].
  - exists l. rewrite app_nil_r. repeat split.
  - assert (Hrest : forall l0, proposedBlock l0 = proposedBlock l ->
                      forall b, b ∈ rest -> confirms' b (proposedBlock l0) hash).
    { intros l0 E b Hb. rewrite E. apply Hconf. right. exact Hb. }
    unfold live at 1.
    destruct (Hconf be) as [Hf|[Hf He]]; [left| |]; rewrite Hf.
    + destruct (IH (filter_out (Name w be) l) (Hrest _ eq_refl) Hhash)
        as (l' & Hc & H1 & H2 & H3 & H4).
      exists l'. repeat split; assumption.
    + rewrite He.
      assert (Hadopt : (if String.eqb (proposedBlockHash l) "" then hash
                        else proposedBlockHash l) = hash).
      { destruct Hhash as [E|E]; rewrite E.
        - destruct (String.eqb hash ""); reflexivity.
        - reflexivity. }
      rewrite Hadopt, Z.eqb_refl, String.eqb_refl. cbn [negb orb].
      destruct (IH (agreeing be (Name w be) hash l) (Hrest _ eq_refl))
        as (l' & Hc & H1 & H2 & H3 & H4); [left; reflexivity|].
      exists l'. repeat split; try assumption.
      rewrite H2. cbn. rewrite <- app_assoc. reflexivity.
Qed.

End Agreement.

(** ** The published group *)

Lemma filtered_false (w : World) (cp : ConsensusPoller) (be : Backend) :
  filtered w cp be = Ok false ->
  IsRateLimited w be = false /\ Online w be = true
  /\ exists bs, backendStates cp !! be = Some bs /\ bannedUntil bs <= now w.
Proof.
  unfold filtered.
  destruct (IsRateLimited w be); [discriminate|].
  destruct (Online w be); [|discriminate]. cbn.
  destruct (backendStates cp !! be) as [bs|]; [|discriminate].
  intros H. repeat split. exists bs. split; [reflexivity|].
  destruct (Z.ltb_spec (now w) (bannedUntil bs)); [discriminate|assumption].
Qed.

(** C6, amended. After a cycle that went through the agreement-seeking loop
    and published, every backend of the published consensus group is a
    backend of the group that was, during the cycle, not rate limited,
    online and not banned. *)
Theorem published_group_excludes_filtered
    (decode : string -> option Z) (encode : Z -> string)
    (fuel : nat) (w : World) (cp cp' : ConsensusPoller) (l : locals) :
  UpdateBackendGroupConsensus decode encode fuel w cp = Some (Ok (cp', Some l)) ->
  forall be, be ∈ consensusGroup cp' ->
    be ∈ backendGroup cp
    /\ IsRateLimited w be = false
    /\ Online w be = true
    /\ exists bs, backendStates cp !! be = Some bs /\ bannedUntil bs <= now w.
Proof.
  unfold UpdateBackendGroupConsensus. intros H be Hin.
  destruct (lowest cp (backendGroup cp) 0 "") as [[n h]|]; [|discriminate].
  destruct (n =? 0); [discriminate|].
  destruct (seek _ _ _ _ _ _ _) as [[l1|]|] eqn:Hseek; try discriminate.
  inversion H; subst. cbn in Hin.
  destruct (seek_agreed _ _ _ _ _ _ _ _ Hseek) as [_ Hlive].
  destruct (Hlive be Hin) as [Hpool Hf].
  split; [exact Hpool|]. apply filtered_false. exact Hf.
Qed.

Lemma published_group_excludes_filtered_witness :
  2%positive ∈ backendGroup cp_same_block
  /\ IsRateLimited w_third_offline 2%positive = false
  /\ Online w_third_offline 2%positive = true
  /\ exists bs, backendStates cp_same_block !! 2%positive = Some bs
                /\ bannedUntil bs <= now w_third_offline.
Proof.
  apply (published_group_excludes_filtered
           hexutil.MustDecodeUint64 hexutil.String 1
           w_third_offline cp_same_block
           (publish cp_same_block
              (mkLocals 100 "0xaa" [1; 2]%positive ["node-a"; "node-b"]
                        ["node-c"] false true))
           (mkLocals 100 "0xaa" [1; 2]%positive ["node-a"; "node-b"]
                     ["node-c"] false true)).
  - vm_compute. reflexivity.
  - cbn. right. left.
Defined.

(** C6 as stated fails. A poller with one backend resolves at block 100 and
    publishes that backend; the backend is then refreshed from a node that is
    back at the genesis block, and goes offline.  The next cycle finds every
    recorded height at zero and returns: the offline backend is still in the
    published group. *)
Lemma offline_backend_stays_published :
  exists cp1 cp2 cp3 cp4 l,
    UpdateBackend hexutil.MustDecodeUint64 w_up
                  (NewConsensusPoller [1%positive] (mkTracker 0)) 1%positive
    = Ok (cp1, Some 100)
    /\ cycle 1 w_up cp1 = Some (Ok (cp2, Some l))
    /\ consensusGroup cp2 = [1%positive]
    /\ UpdateBackend hexutil.MustDecodeUint64 w_resynced cp2 1%positive
       = Ok (cp3, Some 0)
    /\ cycle 1 w_down cp3 = Some (Ok (cp4, None))
    /\ 1%positive ∈ consensusGroup cp4
    /\ Online w_down 1%positive = false.
Proof.
  do 5 eexists.
  split; [vm_compute; reflexivity|].
  split; [vm_compute; reflexivity|].
  split; [reflexivity|].
  split; [vm_compute; reflexivity|].
  split; [vm_compute; reflexivity|].
  split; [left|reflexivity].
Qed.

(** ** Rounds without a comparison, and unanimous rounds *)

(** C10. In a cycle with a nonzero baseline whose first [k] rounds ended in
    disagreement, if in round [k] every backend of the group is passed over
    (rate limited, offline or banned) or is live with a fetch that returns
    an error, then the cycle ends with that round: it publishes the height
    proposed in that round and an empty consensus group, whatever group was
    published before. *)
Theorem round_without_comparison_publishes_empty_group
    (decode : string -> option Z) (encode : Z -> string)
    (w : World) (cp : ConsensusPoller) (k fuel : nat)
    (lowestBlock : Z) (lowestBlockHash : string) (lk : locals) :
  lowest cp (backendGroup cp) 0 "" = Ok (lowestBlock, lowestBlockHash) ->
  lowestBlock <> 0 ->
  locals_after decode encode k w cp (GetConsensusBlockNumber cp)
               (entry lowestBlock lowestBlockHash) = Some lk ->
  (forall be, be ∈ backendGroup cp ->
              skipped decode encode w cp be (proposedBlock lk)) ->
  exists cp' l',
    UpdateBackendGroupConsensus decode encode (k + S fuel) w cp
    = Some (Ok (cp', Some l'))
    /\ consensusGroup cp' = []
    /\ GetConsensusBlockNumber cp' = proposedBlock lk
    /\ proposedBlock l' = proposedBlock lk
    /\ consensusBackends l' = []
    /\ broken l' = broken lk.
Proof.
  intros Hlow Hnz Hk Hskip.
  unfold UpdateBackendGroupConsensus. rewrite Hlow.
  destruct (Z.eqb_spec lowestBlock 0) as [E|_]; [contradiction|].
  fold (entry lowestBlock lowestBlockHash).
  rewrite (seek_after decode encode w cp _ k (S fuel) _ lk Hk).
  cbn [seek].
  destruct (check_all_skipped decode encode w cp (GetConsensusBlockNumber cp)
              (backendGroup cp) (begin_round lk) Hskip)
    as (l' & Hc & Hp & _ & Hg & Hb & Ha).
  rewrite Hc. cbn in Ha. rewrite Ha.
  exists (publish cp l'), l'. cbn in *.
  repeat split; try assumption.
Qed.

Lemma round_without_comparison_publishes_empty_group_witness :
  exists cp' l',
    cycle 2 w_fork_then_nothing cp_fork = Some (Ok (cp', Some l'))
    /\ consensusGroup cp' = []
    /\ GetConsensusBlockNumber cp' = 99
    /\ proposedBlock l' = 99
    /\ consensusBackends l' = []
    /\ broken l' = false.
Proof.
  apply (round_without_comparison_publishes_empty_group
           hexutil.MustDecodeUint64 hexutil.String
           w_fork_then_nothing cp_fork 1 0 100 "0xaa"
           (mkLocals 99 "" [1%positive] ["node-a"] [] false false)).
  - vm_compute. reflexivity.
  - lia.
  - vm_compute. reflexivity.
  - intros be Hin.
    repeat (apply elem_of_cons in Hin as [-> | Hin]);
      [right; split; [|eexists]; vm_compute; reflexivity ..
      | apply elem_of_nil in Hin; contradiction].
Defined.

(** The baseline when every backend of a group that is not empty records the
    same block, at a height that is not zero. *)
Lemma lowest_uniform (cp : ConsensusPoller) (H : Z) (h : string) :
  H <> 0 ->
  forall bes,
    (forall be, be ∈ bes -> backendStates cp !! be = Some (recorded H h)) ->
    forall n0 h0, (n0 = 0 /\ bes <> []) \/ (n0 = H /\ h0 = h) ->
      lowest cp bes n0 h0 = Ok (H, h).
Proof.
  intros Hnz bes. induction bes as [|be rest IH]; intros Hrec n0 h0 Hstart;
    cbn [lowest].
  - destruct Hstart as [[_ Hne]|[-> ->]]; [contradiction|reflexivity].
  - unfold getBackendState. rewrite (Hrec be) by left. cbn.
    assert (Hrest : forall b, b ∈ rest ->
                      backendStates cp !! b = Some (recorded H h)).
    { intros b Hb. apply Hrec. right. exact Hb. }
    destruct Hstart as [[-> _]|[-> ->]].
    + cbn. apply IH; [exact Hrest|]. right. split; reflexivity.
    + destruct (Z.eqb_spec H 0) as [E|_]; [contradiction|].
      rewrite Z.ltb_irrefl. cbn. apply IH; [exact Hrest|].
      right. split; reflexivity.
Qed.

(** C5, amended. If the baseline of the cycle, which is taken over all the
    backends of the group whether healthy or not, is the block [(H, h)] with
    [H] not zero, and every backend that is online, not rate limited and not
    banned answers the query at height [H] with [(H, h)], then one cycle
    publishes exactly those backends, in the order of the group, and the
    height [H], and records no broken consensus. *)
Theorem unanimous_agreement_at_baseline
    (decode : string -> option Z) (encode : Z -> string)
    (fuel : nat) (w : World) (cp : ConsensusPoller) (H : Z) (h : string) :
  lowest cp (backendGroup cp) 0 "" = Ok (H, h) ->
  H <> 0 ->
  (forall be, be ∈ backendGroup cp -> confirms decode encode w cp be H h) ->
  exists cp' l',
    UpdateBackendGroupConsensus decode encode (S fuel) w cp
    = Some (Ok (cp', Some l'))
    /\ consensusGroup cp' = List.filter (live w cp) (backendGroup cp)
    /\ GetConsensusBlockNumber cp' = H
    /\ broken l' = false.
Proof.
  intros Hlow Hnz Hconf.
  unfold UpdateBackendGroupConsensus. rewrite Hlow.
  destruct (Z.eqb_spec H 0) as [E|_]; [contradiction|].
  cbn [seek].
  destruct (check_unanimous decode encode w cp (GetConsensusBlockNumber cp)
              h (backendGroup cp)
              (begin_round (mkLocals H h [] [] [] false false)) Hconf)
    as (l' & Hc & Hp & Hg & Hb & Ha); [left; reflexivity|].
  rewrite Hc. cbn in Ha. rewrite Ha.
  exists (publish cp l'), l'. cbn in *.
  repeat split; try assumption.
Qed.

Lemma unanimous_agreement_at_baseline_witness :
  exists cp' l',
    cycle 1 w_third_offline cp_same_block = Some (Ok (cp', Some l'))
    /\ consensusGroup cp'
       = List.filter (live w_third_offline cp_same_block)
                     (backendGroup cp_same_block)
    /\ GetConsensusBlockNumber cp' = 100
    /\ broken l' = false.
Proof.
  apply (unanimous_agreement_at_baseline
           hexutil.MustDecodeUint64 hexutil.String 0
           w_third_offline cp_same_block 100 "0xaa").
  - vm_compute. reflexivity.
  - lia.
  - intros be Hin.
    repeat (apply elem_of_cons in Hin as [-> | Hin]);
      [right; split; vm_compute; reflexivity ..
      | left; vm_compute; reflexivity
      | apply elem_of_nil in Hin; contradiction].
Defined.

(** C5 as stated fails. The only live backend records block 100 and
    confirms it when asked for height 100; an offline backend was left at
    block 50, so the baseline is 50: the cycle publishes the live backend
    at height 50, not at the shared height 100. *)
Lemma stale_offline_backend_lowers_published_height :
  List.filter (live w_stale_offline cp_stale_offline)
              (backendGroup cp_stale_offline) = [1%positive]
  /\ backendStates cp_stale_offline !! 1%positive = Some (recorded 100 "0xaa")
  /\ fetchBlock hexutil.MustDecodeUint64 w_stale_offline 1%positive
                (hexutil.String 100) = Fetched 100 "0xaa"
  /\ exists cp' l',
       cycle 1 w_stale_offline cp_stale_offline = Some (Ok (cp', Some l'))
       /\ consensusGroup cp' = [1%positive]
       /\ GetConsensusBlockNumber cp' = 50
       /\ GetConsensusBlockNumber cp' <> 100.
Proof.
  split; [vm_compute; reflexivity|].
  split; [vm_compute; reflexivity|].
  split; [vm_compute; reflexivity|].
  do 2 eexists.
  split; [vm_compute; reflexivity|].
  split; [reflexivity|].
  split; [reflexivity|]. vm_compute. discriminate.
Qed.

(** ** Termination of the agreement-seeking loop *)

(** With the two backends of [w_split] no round ends in agreement, whatever
    the proposed block and hash are. *)
Lemma split_round_disagrees (l : locals) :
  exists l1,
    check hexutil.MustDecodeUint64 hexutil.String w_split cp_split 0
          (backendGroup cp_split) (begin_round l) = Ok l1
    /\ allAgreed l1 = false.
Proof.
  assert (Hf : forall be, filtered w_split cp_split be
                          = match backendStates cp_split !! be with
                            | Some bs => Ok (now w_split <? bannedUntil bs)
                            | None => Panic
                            end) by reflexivity.
  assert (H1 : forall tag, fetchBlock hexutil.MustDecodeUint64 w_split
                             1%positive tag = Fetched 1 "0xa1") by reflexivity.
  assert (H2 : forall tag, fetchBlock hexutil.MustDecodeUint64 w_split
                             2%positive tag = Fetched 1 "0xb2") by reflexivity.
  assert (S1 : backendStates cp_split !! 1%positive = Some (recorded 1 "0xa1"))
    by (vm_compute; reflexivity).
  assert (S2 : backendStates cp_split !! 2%positive = Some (recorded 1 "0xb2"))
    by (vm_compute; reflexivity).
  change (backendGroup cp_split) with [1%positive; 2%positive].
  cbn [check]. rewrite !Hf, S1, S2, H1. cbn [recorded bannedUntil].
  change (now w_split <? 0) with false. cbn iota.
  cbn [begin_round proposedBlock proposedBlockHash].
  destruct (negb (1 =? proposedBlock l)
            || negb (String.eqb "0xa1"
                       (if String.eqb (proposedBlockHash l) "" then "0xa1"
                        else proposedBlockHash l))) eqn:Hm.
  - eexists. split; reflexivity.
  - apply orb_false_elim in Hm as [Hn Hh].
    apply negb_false_iff in Hn, Hh. apply String.eqb_eq in Hh.
    rewrite H2. cbn [agreeing proposedBlock proposedBlockHash].
    rewrite <- Hh. cbn [String.eqb Ascii.eqb Bool.eqb negb orb andb].
    rewrite orb_true_r.
    eexists. split; reflexivity.
Qed.

Lemma split_seek_runs_out (fuel : nat) :
  forall l, seek hexutil.MustDecodeUint64 hexutil.String fuel w_split cp_split
                 0 l = None.
Proof.
  induction fuel as [|fuel IH]; intros l; cbn [seek]; [reflexivity|].
  destruct (split_round_disagrees l) as (l1 & -> & ->). apply IH.
Qed.

(** C9. With two live backends that answer every query with their latest
    block, the same height 1 under two different hashes, the loop of the
    cycle ends for no amount of fuel; its third round is entered at height
    [2^64 - 1], above the height zero of the second. *)
Theorem seek_does_not_end_on_split_backends :
  (forall fuel, cycle fuel w_split cp_split = None)
  /\ (exists l1 l2,
        locals_after hexutil.MustDecodeUint64 hexutil.String 1
                     w_split cp_split 0 (entry 1 "0xa1") = Some l1
        /\ proposedBlock l1 = 0
        /\ locals_after hexutil.MustDecodeUint64 hexutil.String 2
                        w_split cp_split 0 (entry 1 "0xa1") = Some l2
        /\ proposedBlock l2 = 18446744073709551615)
  /\ dec64 0 = 18446744073709551615.
Proof.
  split; [|split].
  - intros fuel. unfold cycle, UpdateBackendGroupConsensus.
    change (lowest cp_split (backendGroup cp_split) 0 "") with
      (@Ok (Z * string) (1, "0xa1")).
    cbn iota beta. change (1 =? 0) with false. cbn iota.
    rewrite split_seek_runs_out. reflexivity.
  - do 2 eexists.
    split; [vm_compute; reflexivity|].
    split; [reflexivity|].
    split; [vm_compute; reflexivity|reflexivity].
  - reflexivity.
Qed.

(** ** Broken consensus *)

Section Disagreement.

Variable decode : string -> option Z.
Variable encode : Z -> string.
Variable w : World.
Variable cp : ConsensusPoller.
Variable current : Z.

Local Abbreviation check' := (check decode encode w cp current).
Local Abbreviation after' :=
  (fun k => locals_after decode encode k w cp current).
Local Abbreviation found' := (found_disagreeing decode encode w cp current).

(** Scanning a list in two parts: the second part is scanned unless the
    first stopped the round. *)
Lemma check_app (before after : list Backend) :
  forall l, allAgreed l = true ->
    check' (before ++ after) l
    = match check' before l with
      | Ok reached => if allAgreed reached then check' after reached
                      else Ok reached
      | Panic => Panic
      end.
Proof.
  induction before as [|be rest IH]; intros l Hall; cbn [check app].
  - rewrite Hall. reflexivity.
  - destruct (filtered w cp be) as [[|]|]; [| |reflexivity].
    + apply IH. exact Hall.
    + destruct (fetchBlock decode w be (encode (proposedBlock l)))
        as [n h|e|]; [| |reflexivity].
      * destruct (negb (n =? proposedBlock l) || _).
        -- reflexivity.
        -- apply IH. exact Hall.
      * apply IH. exact Hall.
Qed.

(** A round that stopped did so on a backend found disagreeing, and raised
    [broken] when the backend's block is at or below the published
    height. *)
Lemma check_stopped (bes : list Backend) :
  forall l l1,
    allAgreed l = true -> check' bes l = Ok l1 -> allAgreed l1 = false ->
    exists before be after reached n h,
      bes = (before ++ be :: after)%list
      /\ check' before l = Ok reached
      /\ allAgreed reached = true
      /\ filtered w cp be = Ok false
      /\ fetchBlock decode w be (encode (proposedBlock reached)) = Fetched n h
      /\ (n <> proposedBlock reached
          \/ h <> (if String.eqb (proposedBlockHash reached) "" then h
                   else proposedBlockHash reached))
      /\ broken l1 = broken l || (current >=? n).
Proof.
  induction bes as [|b rest IH]; intros l l1 Hall Hc Hstop; cbn [check] in Hc.
  - inversion Hc; subst. congruence.
  - destruct (filtered w cp b) as [[|]|] eqn:Hf; [| |discriminate].
    + destruct (IH (filter_out (Name w b) l) l1 Hall Hc Hstop)
        as (before & be & after & reached & n & h & E & Hb & Hr & Hl & Hq & Hm & Hbr).
      exists (b :: before), be, after, reached, n, h.
      repeat split; try assumption.
      * rewrite E. reflexivity.
      * cbn [check]. rewrite Hf. exact Hb.
    + destruct (fetchBlock decode w b (encode (proposedBlock l)))
        as [n h|e|] eqn:Hq; [| |discriminate].
      * destruct (negb (n =? proposedBlock l) || _) eqn:Hm.
        -- inversion Hc; subst.
           exists [], b, rest, l, n, h.
           repeat split; try assumption.
           apply orb_true_iff in Hm as [Hm|Hm]; apply negb_true_iff in Hm.
           ++ left. apply Z.eqb_neq. exact Hm.
           ++ right. intros E. rewrite <- E, String.eqb_refl in Hm.
              discriminate.
        -- destruct (IH (agreeing b (Name w b) _ l) l1 Hall Hc Hstop)
             as (before & be & after & reached & n' & h' & E & Hb & Hr & Hl
                 & Hq' & Hm' & Hbr).
           exists (b :: before), be, after, reached, n', h'.
           repeat split; try assumption.
           ++ rewrite E. reflexivity.
           ++ cbn [check]. rewrite Hf, Hq, Hm. exact Hb.
      * destruct (IH l l1 Hall Hc Hstop)
          as (before & be & after & reached & n' & h' & E & Hb & Hr & Hl
              & Hq' & Hm' & Hbr).
        exists (b :: before), be, after, reached, n', h'.
        repeat split; try assumption.
        -- rewrite E. reflexivity.
        -- cbn [check]. rewrite Hf, Hq. exact Hb.
Qed.

(** The round in which a backend is found disagreeing stops, and raises
    [broken] when that backend's block is at or below the published
    height. *)
Lemma found_stops (l : locals) (be : Backend) (n : Z) (h : string) :
  found' l be n h ->
  exists l1,
    check' (backendGroup cp) (begin_round l) = Ok l1
    /\ allAgreed l1 = false
    /\ broken l1 = broken l || (current >=? n).
Proof.
  intros (before & after & reached & E & Hb & Hr & Hl & Hq & Hm).
  rewrite E, check_app, Hb, Hr by reflexivity.
  cbn [check]. rewrite Hl, Hq.
  assert (Hmis : negb (n =? proposedBlock reached)
                 || negb (String.eqb h
                            (if String.eqb (proposedBlockHash reached) ""
                             then h else proposedBlockHash reached)) = true).
  { apply orb_true_iff. destruct Hm as [Hm|Hm].
    - left. apply negb_true_iff, Z.eqb_neq. exact Hm.
    - right. apply negb_true_iff, String.eqb_neq. exact Hm. }
  rewrite Hmis. eexists. split; [reflexivity|]. split; [reflexivity|].
  cbn. destruct (check_agreed_broken _ _ _ _ _ _ _ _ Hb Hr) as [-> _].
  reflexivity.
Qed.

(** [broken] at the end of the loop: it was raised on entry, or one of the
    rounds found a backend disagreeing with a block at or below the
    published height. *)
Lemma seek_broken (fuel : nat) :
  forall l l',
    seek decode encode fuel w cp current l = Some (Ok l') ->
    (broken l' = true <->
     broken l = true
     \/ exists k lk be n h,
          after' k l = Some lk /\ found' lk be n h /\ n <= current).
Proof.
  induction fuel as [|fuel IH]; intros l l' H; cbn [seek] in H; [discriminate|].
  destruct (check' (backendGroup cp) (begin_round l)) as [l1|] eqn:Hc;
    [|discriminate].
  destruct (allAgreed l1) eqn:Hall.
  - inversion H; subst l'.
    destruct (check_agreed_broken _ _ _ _ _ _ _ _ Hc Hall) as [Hb _].
    cbn in Hb. rewrite Hb. split; [auto|].
    intros [Hl|(k & lk & be & n & h & Hk & Hfound & _)]; [exact Hl|].
    destruct k as [|k]; cbn [locals_after] in Hk.
    + inversion Hk; subst lk.
      destruct (found_stops _ _ _ _ Hfound) as (l2 & Hc2 & Hstop & _).
      congruence.
    + rewrite Hc, Hall in Hk. discriminate.
  - destruct (check_stopped _ (begin_round l) l1 eq_refl Hc Hall)
      as (before & be & after & reached & n & h & E & Hb & Hr & Hl & Hq & Hm & Hbr).
    assert (Hfound : found' l be n h).
    { exists before, after, reached. repeat split; assumption. }
    cbn in Hbr.
    rewrite (IH _ _ H). cbn [walk_back broken]. split.
    + intros [Hl1|(k & lk & be' & n' & h' & Hk & Hf' & Hle)].
      * rewrite Hbr in Hl1. apply orb_true_iff in Hl1 as [Hl1|Hl1].
        -- left. exact Hl1.
        -- right. exists O, l, be, n, h. repeat split; try assumption.
           apply Z.geb_le in Hl1. exact Hl1.
      * right. exists (S k), lk, be', n', h'. repeat split; try assumption.
        cbn [locals_after]. rewrite Hc, Hall. exact Hk.
    + intros [Hl0|(k & lk & be' & n' & h' & Hk & Hf' & Hle)].
      * left. rewrite Hbr, Hl0. reflexivity.
      * destruct k as [|k]; cbn [locals_after] in Hk.
        -- inversion Hk; subst lk.
           destruct (found_stops _ _ _ _ Hf') as (l2 & Hc2 & _ & Hbr2).
           left. rewrite Hc in Hc2. inversion Hc2; subst l2.
           rewrite Hbr2. apply orb_true_iff. right. apply Z.geb_le. exact Hle.
        -- rewrite Hc, Hall in Hk.
           right. exists k, lk, be', n', h'. repeat split; assumption.
Qed.

End Disagreement.

(** [broken] at the end of a cycle that published. *)
Lemma cycle_broken_iff
    (decode : string -> option Z) (encode : Z -> string)
    (fuel : nat) (w : World) (cp cp' : ConsensusPoller) (l' : locals)
    (lowestBlock : Z) (lowestBlockHash : string) :
  lowest cp (backendGroup cp) 0 "" = Ok (lowestBlock, lowestBlockHash) ->
  UpdateBackendGroupConsensus decode encode fuel w cp = Some (Ok (cp', Some l')) ->
  (broken l' = true <->
   exists k lk be n h,
     locals_after decode encode k w cp (GetConsensusBlockNumber cp)
                  (entry lowestBlock lowestBlockHash) = Some lk
     /\ found_disagreeing decode encode w cp (GetConsensusBlockNumber cp)
                          lk be n h
     /\ n <= GetConsensusBlockNumber cp).
Proof.
  intros Hlow H. unfold UpdateBackendGroupConsensus in H. rewrite Hlow in H.
  destruct (lowestBlock =? 0); [discriminate|].
  fold (entry lowestBlock lowestBlockHash) in H.
  destruct (seek _ _ _ _ _ _ _) as [[l1|]|] eqn:Hseek; try discriminate.
  inversion H; subst.
  rewrite (seek_broken _ _ _ _ _ _ _ _ Hseek). cbn [entry broken].
  split.
  - intros [Hl|Hr]; [discriminate|exact Hr].
  - intros Hr. right. exact Hr.
Qed.



(** When the backends found disagreeing answered with a block at the
    proposed height, a broken-consensus event is recorded exactly when a
    round with a disagreement was at a proposed height at or below the
    published one. *)
Lemma cycle_broken_iff_proposed_height
    (decode : string -> option Z) (encode : Z -> string)
    (fuel : nat) (w : World) (cp cp' : ConsensusPoller) (l' : locals)
    (lowestBlock : Z) (lowestBlockHash : string) :
  lowest cp (backendGroup cp) 0 "" = Ok (lowestBlock, lowestBlockHash) ->
  UpdateBackendGroupConsensus decode encode fuel w cp = Some (Ok (cp', Some l')) ->
  (forall k lk be n h,
     locals_after decode encode k w cp (GetConsensusBlockNumber cp)
                  (entry lowestBlock lowestBlockHash) = Some lk ->
     found_disagreeing decode encode w cp (GetConsensusBlockNumber cp)
                       lk be n h ->
     n = proposedBlock lk) ->
  (broken l' = true <->
   exists k lk be n h,
     locals_after decode encode k w cp (GetConsensusBlockNumber cp)
                  (entry lowestBlock lowestBlockHash) = Some lk
     /\ found_disagreeing decode encode w cp (GetConsensusBlockNumber cp)
                          lk be n h
     /\ proposedBlock lk <= GetConsensusBlockNumber cp).
Proof.
  intros Hlow H Hsame.
  rewrite (cycle_broken_iff _ _ _ _ _ _ _ _ _ Hlow H).
  split; intros (k & lk & be & n & h & Hk & Hf & Hle);
    exists k, lk, be, n, h; repeat split; try assumption;
    rewrite (Hsame _ _ _ _ _ Hk Hf) in *; exact Hle.
Qed.


(** ** The [hexutil] functions on known values *)

Example String_zero : hexutil.String 0 = "0x0".
Proof. reflexivity. Qed.

Example String_100 : hexutil.String 100 = "0x64".
Proof. reflexivity. Qed.

Example String_max :
  hexutil.String 18446744073709551615 = "0xffffffffffffffff".
Proof. reflexivity. Qed.

Example DecodeUint64_mixed_case : hexutil.DecodeUint64 "0xFf" = Some 255.
Proof. reflexivity. Qed.

Example DecodeUint64_leading_zero : hexutil.DecodeUint64 "0x064" = None.
Proof. reflexivity. Qed.

Example DecodeUint64_no_prefix : hexutil.DecodeUint64 "64" = None.
Proof. reflexivity. Qed.

Example DecodeUint64_no_digit : hexutil.DecodeUint64 "0x" = None.
Proof. reflexivity. Qed.

Example DecodeUint64_out_of_range :
  hexutil.DecodeUint64 "0x10000000000000000" = None.
Proof. reflexivity. Qed.

Example fetchBlock_well_formed :
  fetchBlock hexutil.MustDecodeUint64 w_up 1%positive "latest"
  = Fetched 100 "0xaa".
Proof. reflexivity. Qed.

(** * Further properties of the poller *)

(** ** Construction *)

Lemma foldl_insert_lookup (z : backendState) (bg : list Backend) :
  forall (m : gmap Backend backendState) (be : Backend),
    foldl (fun state b => <[b := z]> state) m bg !! be
    = if decide (be ∈ bg) then Some z else m !! be.
Proof.
  induction bg as [|b rest IH]; intros m be; cbn [foldl].
  - destruct (decide (be ∈ [])) as [Hin|_]; [|reflexivity].
    apply elem_of_nil in Hin. contradiction.
  - rewrite IH.
    destruct (decide (be ∈ rest)) as [Hin|Hout].
    + destruct (decide (be ∈ b :: rest)) as [_|Hn]; [reflexivity|].
      exfalso. apply Hn. right. exact Hin.
    + destruct (decide (be = b)) as [->|Hne].
      * rewrite lookup_insert_eq.
        destruct (decide (b ∈ b :: rest)) as [_|Hn]; [reflexivity|].
        exfalso. apply Hn. left.
      * rewrite lookup_insert_ne by congruence.
        destruct (decide (be ∈ b :: rest)) as [Hin|_]; [|reflexivity].
        apply elem_of_cons in Hin as [E|Hin]; contradiction.
Qed.

(** X1. A poller built by [NewConsensusPoller] has the zero state for
    exactly the backends of its group and no state for any other backend,
    publishes an empty consensus group and the height its tracker came
    with, and [GetConsensusGroup] returns one nil pointer per backend of the
    group. *)
Theorem NewConsensusPoller_initial_state
    (bg : list Backend) (t : ConsensusTracker) (be : Backend) :
  backendStates (NewConsensusPoller bg t) !! be
  = (if decide (be ∈ bg) then Some zeroBackendState else None)
  /\ states_cover_group (NewConsensusPoller bg t)
  /\ backendGroup (NewConsensusPoller bg t) = bg
  /\ consensusGroup (NewConsensusPoller bg t) = []
  /\ GetConsensusBlockNumber (NewConsensusPoller bg t) = consensusBlockNumber t
  /\ GetConsensusGroup (NewConsensusPoller bg t) = replicate (length bg) None.
Proof.
  unfold NewConsensusPoller. cbn [backendStates].
  split; [|split; [|repeat split]].
  - rewrite foldl_insert_lookup. destruct (decide (be ∈ bg)); [reflexivity|].
    apply lookup_empty.
  - intros b Hin. cbn [backendGroup backendStates] in *.
    rewrite foldl_insert_lookup.
    destruct (decide (b ∈ bg)); [eexists; reflexivity|contradiction].
  - unfold GetConsensusGroup, copy. cbn [backendGroup consensusGroup fmap].
    rewrite length_replicate. cbn [list_fmap length]. rewrite Nat.min_0_r.
    reflexivity.
Qed.

(** X2. The first cycle on a poller just built resolves nothing, whatever
    the backends answer: every recorded height is still zero, and the poller
    comes back as it was. *)
Theorem first_cycle_on_new_poller_resolves_nothing
    (decode : string -> option Z) (encode : Z -> string)
    (fuel : nat) (w : World) (bg : list Backend) (t : ConsensusTracker) :
  UpdateBackendGroupConsensus decode encode fuel w (NewConsensusPoller bg t)
  = Some (Ok (NewConsensusPoller bg t, None)).
Proof.
  unfold UpdateBackendGroupConsensus.
  destruct (lowest_all_zero (NewConsensusPoller bg t) bg) with (h0 := "")
    as [h Hlow].
  { intros be Hin. exists zeroBackendState. split; [|reflexivity].
    unfold NewConsensusPoller. cbn [backendStates].
    rewrite foldl_insert_lookup.
    destruct (decide (be ∈ bg)); [reflexivity|contradiction]. }
  change (backendGroup (NewConsensusPoller bg t)) with bg.
  rewrite Hlow. reflexivity.
Qed.

(** ** Reading back what was set *)

(** X3. After a [setBackendState] that returns, [getBackendState] on the
    poller it leaves returns the height and hash just set for that backend
    and what it returned before for every other backend; setting the same
    hash again, with any height and at any time, reports no change and is
    read back in turn. *)
Theorem setBackendState_then_getBackendState
    (w w' : World) (cp cp' : ConsensusPoller) (be : Backend)
    (blockNumber blockNumber' : Z) (blockHash : string) (changed : bool) :
  setBackendState w cp be blockNumber blockHash = Ok (cp', changed) ->
  getBackendState cp' be = Ok (blockNumber, blockHash)
  /\ (forall other, other <> be ->
        getBackendState cp' other = getBackendState cp other)
  /\ exists cp'',
       setBackendState w' cp' be blockNumber' blockHash = Ok (cp'', false)
       /\ getBackendState cp'' be = Ok (blockNumber', blockHash).
Proof.
  unfold setBackendState, getBackendState. intros H.
  destruct (backendStates cp !! be) as [bs|] eqn:Hbs; [|discriminate].
  inversion H; subst. cbn [backendStates].
  rewrite lookup_insert_eq. cbn.
  split; [reflexivity|]. split.
  - intros other Hne. rewrite lookup_insert_ne by congruence. reflexivity.
  - rewrite String.eqb_refl. cbn. eexists. split; [reflexivity|].
    cbn. rewrite lookup_insert_eq. reflexivity.
Qed.

Lemma setBackendState_then_getBackendState_witness :
  getBackendState
    (mkPoller [1; 2]%positive
       (<[2%positive := mkBackendState 101 "0xcc" 10 0]>
          (backendStates cp_short_group))
       [1%positive] (mkTracker 100)) 2%positive = Ok (101, "0xcc")
  /\ (forall other, other <> 2%positive ->
        getBackendState
          (mkPoller [1; 2]%positive
             (<[2%positive := mkBackendState 101 "0xcc" 10 0]>
                (backendStates cp_short_group))
             [1%positive] (mkTracker 100)) other
        = getBackendState cp_short_group other)
  /\ exists cp'',
       setBackendState w_down
         (mkPoller [1; 2]%positive
            (<[2%positive := mkBackendState 101 "0xcc" 10 0]>
               (backendStates cp_short_group))
            [1%positive] (mkTracker 100)) 2%positive 102 "0xcc"
       = Ok (cp'', false)
       /\ getBackendState cp'' 2%positive = Ok (102, "0xcc").
Proof.
  apply (setBackendState_then_getBackendState w_up w_down cp_short_group
           _ 2%positive 101 102 "0xcc" true).
  reflexivity.
Defined.

(** ** The per-backend refresh *)

Section Refresh.

Variable decode : string -> option Z.
Variable w : World.
Variable cp : ConsensusPoller.
Variable be : Backend.

(** The outcomes of [UpdateBackend], by cases. *)
Lemma UpdateBackend_cases :
  match backendStates cp !! be with
  | None => UpdateBackend decode w cp be = Panic
  | Some bs =>
      if refresh_skipped w bs be then UpdateBackend decode w cp be = Ok (cp, None)
      else
        match fetchBlock decode w be "latest" with
        | FetchPanic => UpdateBackend decode w cp be = Panic
        | FetchError _ => UpdateBackend decode w cp be = Ok (cp, None)
        | Fetched n h =>
            UpdateBackend decode w cp be
            = Ok (mkPoller (backendGroup cp)
                    (<[be := mkBackendState n h (now w) (bannedUntil bs)]>
                       (backendStates cp))
                    (consensusGroup cp) (tracker cp),
                  if String.eqb (latestBlockHash bs) h then None else Some n)
        end
  end.
Proof.
  unfold UpdateBackend, refresh_skipped, setBackendState.
  destruct (backendStates cp !! be) as [bs|] eqn:Hbs; [|reflexivity].
  destruct (now w <? bannedUntil bs); [reflexivity|]. cbn [orb].
  destruct (IsRateLimited w be || negb (Online w be)); [reflexivity|].
  destruct (fetchBlock decode w be "latest") as [n h|e|]; try reflexivity.
  destruct (String.eqb (latestBlockHash bs) h); reflexivity.
Qed.

(** A refresh that returns either left the poller alone or stored the block
    it fetched. *)
Lemma UpdateBackend_returns (cp' : ConsensusPoller) (metric : option Z) :
  UpdateBackend decode w cp be = Ok (cp', metric) ->
  exists bs,
    backendStates cp !! be = Some bs
    /\ ((cp' = cp /\ metric = None)
        \/ exists n h,
             refresh_skipped w bs be = false
             /\ fetchBlock decode w be "latest" = Fetched n h
             /\ cp' = mkPoller (backendGroup cp)
                        (<[be := mkBackendState n h (now w) (bannedUntil bs)]>
                           (backendStates cp))
                        (consensusGroup cp) (tracker cp)
             /\ metric = (if String.eqb (latestBlockHash bs) h then None
                          else Some n)).
Proof.
  intros H. pose proof UpdateBackend_cases as Hc.
  destruct (backendStates cp !! be) as [bs|]; [|congruence].
  exists bs. split; [reflexivity|].
  destruct (refresh_skipped w bs be).
  { left. rewrite Hc in H. inversion H; auto. }
  destruct (fetchBlock decode w be "latest") as [n h|e|].
  - right. exists n, h. rewrite Hc in H. inversion H; auto.
  - left. rewrite Hc in H. inversion H; auto.
  - congruence.
Qed.

End Refresh.

(** X4. A refresh that returns touches nothing but the state of the backend
    it refreshes: the backend group, the published group, the tracker and
    the states of the other backends are as before, the backends that have a
    state are the same, the ban of the refreshed backend is kept, and if
    every backend of the group had a state, every one still has. *)
Theorem UpdateBackend_frame
    (decode : string -> option Z) (w : World) (cp cp' : ConsensusPoller)
    (be : Backend) (metric : option Z) :
  UpdateBackend decode w cp be = Ok (cp', metric) ->
  backendGroup cp' = backendGroup cp
  /\ consensusGroup cp' = consensusGroup cp
  /\ tracker cp' = tracker cp
  /\ (forall other, other <> be ->
        backendStates cp' !! other = backendStates cp !! other)
  /\ (forall b, is_Some (backendStates cp' !! b)
                <-> is_Some (backendStates cp !! b))
  /\ (exists bs bs', backendStates cp !! be = Some bs
                     /\ backendStates cp' !! be = Some bs'
                     /\ bannedUntil bs' = bannedUntil bs)
  /\ (states_cover_group cp -> states_cover_group cp').
Proof.
  intros H.
  destruct (UpdateBackend_returns _ _ _ _ _ _ H) as (bs & Hbs & Hcase).
  destruct Hcase as [[-> _]|(n & h & _ & _ & -> & _)].
  - repeat split; auto. exists bs, bs. auto.
  - cbn.
    assert (Hdom : forall b,
              is_Some (<[be := mkBackendState n h (now w) (bannedUntil bs)]>
                         (backendStates cp) !! b)
              <-> is_Some (backendStates cp !! b)).
    { intros b. destruct (decide (b = be)) as [->|Hne].
      - rewrite lookup_insert_eq, Hbs. split; intros _; eexists; reflexivity.
      - rewrite lookup_insert_ne by congruence. reflexivity. }
    repeat split.
    + intros other Hne. apply lookup_insert_ne. congruence.
    + apply Hdom.
    + apply Hdom.
    + exists bs, (mkBackendState n h (now w) (bannedUntil bs)).
      rewrite lookup_insert_eq. auto.
    + intros Hcover b Hin. cbn in *. apply Hdom. apply Hcover. exact Hin.
Qed.

Lemma UpdateBackend_frame_witness :
  backendGroup cp_refreshed = backendGroup cp_new
  /\ consensusGroup cp_refreshed = consensusGroup cp_new
  /\ tracker cp_refreshed = tracker cp_new
  /\ (forall other, other <> 1%positive ->
        backendStates cp_refreshed !! other = backendStates cp_new !! other)
  /\ (forall b, is_Some (backendStates cp_refreshed !! b)
                <-> is_Some (backendStates cp_new !! b))
  /\ (exists bs bs', backendStates cp_new !! 1%positive = Some bs
                     /\ backendStates cp_refreshed !! 1%positive = Some bs'
                     /\ bannedUntil bs' = bannedUntil bs)
  /\ (states_cover_group cp_new -> states_cover_group cp_refreshed).
Proof.
  apply (UpdateBackend_frame hexutil.MustDecodeUint64 w_up
           cp_new cp_refreshed 1%positive (Some 100)).
  vm_compute. reflexivity.
Defined.

(** X5. A refresh that returns hands a block number to the latest-block
    metric exactly when the hash stored for the backend is no longer the one
    stored before; the number is then the height now stored, and the state
    was stamped with the current time. *)
Theorem UpdateBackend_records_metric_iff_hash_changed
    (decode : string -> option Z) (w : World) (cp cp' : ConsensusPoller)
    (be : Backend) (metric : option Z) :
  UpdateBackend decode w cp be = Ok (cp', metric) ->
  exists bs bs',
    backendStates cp !! be = Some bs
    /\ backendStates cp' !! be = Some bs'
    /\ (metric = None <-> latestBlockHash bs' = latestBlockHash bs)
    /\ (forall n, metric = Some n ->
          latestBlockNumber bs' = n /\ lastUpdate bs' = now w).
Proof.
  intros H.
  destruct (UpdateBackend_returns _ _ _ _ _ _ H) as (bs & Hbs & Hcase).
  destruct Hcase as [[-> ->]|(n & h & _ & _ & -> & ->)].
  - exists bs, bs. repeat split; auto; discriminate.
  - exists bs, (mkBackendState n h (now w) (bannedUntil bs)).
    cbn. rewrite lookup_insert_eq. cbn.
    destruct (String.eqb_spec (latestBlockHash bs) h) as [E|E].
    + repeat split; auto; discriminate.
    + repeat split; try congruence; try discriminate.
Qed.

Lemma UpdateBackend_records_metric_iff_hash_changed_witness :
  exists bs bs',
    backendStates cp_new !! 1%positive = Some bs
    /\ backendStates cp_refreshed !! 1%positive = Some bs'
    /\ (Some 100 = None <-> latestBlockHash bs' = latestBlockHash bs)
    /\ (forall n, Some 100 = Some n ->
          latestBlockNumber bs' = n /\ lastUpdate bs' = now w_up).
Proof.
  apply (UpdateBackend_records_metric_iff_hash_changed
           hexutil.MustDecodeUint64 w_up cp_new cp_refreshed 1%positive
           (Some 100)).
  vm_compute. reflexivity.
Defined.

(** X6. [UpdateBackend] panics in two cases only: the backend has no state,
    or it is neither banned, rate limited nor offline and its fetch of the
    latest block panics. *)
Theorem UpdateBackend_panics_iff
    (decode : string -> option Z) (w : World) (cp : ConsensusPoller)
    (be : Backend) :
  UpdateBackend decode w cp be = Panic
  <-> backendStates cp !! be = None
      \/ exists bs, backendStates cp !! be = Some bs
                    /\ refresh_skipped w bs be = false
                    /\ fetchBlock decode w be "latest" = FetchPanic.
Proof.
  pose proof (UpdateBackend_cases decode w cp be) as Hc.
  destruct (backendStates cp !! be) as [bs|] eqn:Hbs.
  - destruct (refresh_skipped w bs be) eqn:Hs.
    + rewrite Hc. split; [discriminate|].
      intros [H|(bs' & E & Hs' & _)]; [discriminate|].
      inversion E; subst. congruence.
    + destruct (fetchBlock decode w be "latest") as [n h|e|] eqn:Hf;
        rewrite Hc; split; try discriminate.
      * intros [H|(bs' & _ & _ & H)]; discriminate.
      * intros [H|(bs' & _ & _ & H)]; discriminate.
      * intros _. right. exists bs. auto.
      * reflexivity.
  - rewrite Hc. split; [auto|reflexivity].
Qed.

(** X7. A backend that is banned, rate limited or offline is not fetched
    from: its refresh returns the poller as it was and records no metric,
    even where a fetch would panic; so does the refresh of a backend whose
    fetch returns an error. *)
Theorem UpdateBackend_skipped_or_failed_changes_nothing
    (decode : string -> option Z) (w : World) (cp : ConsensusPoller)
    (be : Backend) (bs : backendState) :
  backendStates cp !! be = Some bs ->
  refresh_skipped w bs be = true
  \/ (exists err, fetchBlock decode w be "latest" = FetchError err) ->
  UpdateBackend decode w cp be = Ok (cp, None).
Proof.
  intros Hbs Hwhy. pose proof (UpdateBackend_cases decode w cp be) as Hc.
  rewrite Hbs in Hc.
  destruct (refresh_skipped w bs be); [exact Hc|].
  destruct Hwhy as [H|[err He]]; [discriminate|].
  rewrite He in Hc. exact Hc.
Qed.

Lemma UpdateBackend_skipped_or_failed_changes_nothing_witness :
  UpdateBackend hexutil.MustDecodeUint64 w_down cp_refreshed 1%positive
  = Ok (cp_refreshed, None).
Proof.
  apply (UpdateBackend_skipped_or_failed_changes_nothing
           hexutil.MustDecodeUint64 w_down cp_refreshed 1%positive
           (mkBackendState 100 "0xaa" 10 0)).
  - vm_compute. reflexivity.
  - left. vm_compute. reflexivity.
Defined.

(** ** What a cycle publishes *)

Section Published.

Variable decode : string -> option Z.
Variable encode : Z -> string.
Variable w : World.
Variable cp : ConsensusPoller.
Variable current : Z.

Local Abbreviation check' := (check decode encode w cp current).

(** A round that ran to its end added to [consensusBackends] the backends
    it compared, in the order of the list. *)
Lemma check_agreed_group (bes : list Backend) :
  forall l l',
    check' bes l = Ok l' -> allAgreed l' = true ->
    consensusBackends l'
    = (consensusBackends l
       ++ List.filter (answered decode encode w cp (proposedBlock l)) bes)%list.
Proof.
  induction bes as [|b rest IH]; intros l l' H Hall; cbn [check List.filter] in *.
  - inversion H; subst. rewrite app_nil_r. reflexivity.
  - unfold answered at 1, live.
    destruct (filtered w cp b) as [[|]|]; [| |discriminate]; cbn [andb].
    + rewrite (IH _ _ H Hall). reflexivity.
    + destruct (fetchBlock decode w b (encode (proposedBlock l)))
        as [n h|e|]; [| |discriminate].
      * destruct (negb (n =? proposedBlock l) || _).
        -- inversion H; subst. discriminate.
        -- rewrite (IH _ _ H Hall). cbn. rewrite <- app_assoc. reflexivity.
      * rewrite (IH _ _ H Hall). reflexivity.
Qed.

Local Abbreviation members_agree := (members_agree decode encode w).

Lemma check_members_agree (bes : list Backend) :
  forall l l', check' bes l = Ok l' -> members_agree l -> members_agree l'.
Proof.
  induction bes as [|b rest IH]; intros l l' H Hinv; cbn [check] in H.
  - inversion H; subst. exact Hinv.
  - destruct (filtered w cp b) as [[|]|]; [| |discriminate].
    + apply (IH _ _ H). exact Hinv.
    + destruct (fetchBlock decode w b (encode (proposedBlock l)))
        as [n h|e|] eqn:Hq; [| |discriminate].
      * assert (Hold : forall hash be,
                  be ∈ consensusBackends l ->
                  exists hb,
                    fetchBlock decode w be (encode (proposedBlock l))
                    = Fetched (proposedBlock l) hb
                    /\ (hb = (if String.eqb (proposedBlockHash l) "" then hash
                              else proposedBlockHash l)
                        \/ hb = "")).
        { intros hash be Hin. destruct (Hinv be Hin) as (hb & Hf & Hh).
          exists hb. split; [exact Hf|].
          destruct (String.eqb_spec (proposedBlockHash l) "") as [E|_].
          - right. destruct Hh as [Hh|Hh]; congruence.
          - exact Hh. }
        destruct (negb (n =? proposedBlock l) || _) eqn:Hm.
        -- inversion H; subst. intros be Hin. cbn in *. apply Hold. exact Hin.
        -- apply (IH _ _ H). intros be Hin. cbn in *.
           apply elem_of_app in Hin as [Hin|Hin]; [apply Hold; exact Hin|].
           apply list_elem_of_singleton in Hin. subst be.
           apply orb_false_elim in Hm as [Hn Hh].
           apply negb_false_iff in Hn, Hh.
           apply Z.eqb_eq in Hn. apply String.eqb_eq in Hh. subst n.
           exists h. split; [exact Hq|]. left. exact Hh.
      * apply (IH _ _ H). exact Hinv.
Qed.

(** The loop ends on round [k] for some [k] below the fuel: the rounds
    before ended in disagreement and round [k] ran to its end. *)
Lemma seek_rounds (fuel : nat) :
  forall l l',
    seek decode encode fuel w cp current l = Some (Ok l') ->
    exists k lk,
      (k < fuel)%nat
      /\ locals_after decode encode k w cp current l = Some lk
      /\ check' (backendGroup cp) (begin_round lk) = Ok l'
      /\ allAgreed l' = true.
Proof.
  induction fuel as [|fuel IH]; intros l l' H; cbn [seek] in H; [discriminate|].
  destruct (check' (backendGroup cp) (begin_round l)) as [l1|] eqn:Hc;
    [|discriminate].
  destruct (allAgreed l1) eqn:Hall.
  - inversion H; subst. exists O, l. repeat split; auto. lia.
  - destruct (IH _ _ H) as (k & lk & Hk & Hafter & Hc' & Hall').
    exists (S k), lk. repeat split; auto; [lia|].
    cbn [locals_after]. rewrite Hc, Hall. exact Hafter.
Qed.

End Published.

Lemma cycle_published
    (decode : string -> option Z) (encode : Z -> string)
    (fuel : nat) (w : World) (cp cp' : ConsensusPoller) (l : locals) :
  UpdateBackendGroupConsensus decode encode fuel w cp = Some (Ok (cp', Some l)) ->
  exists lowestBlock lowestBlockHash,
    lowest cp (backendGroup cp) 0 "" = Ok (lowestBlock, lowestBlockHash)
    /\ lowestBlock <> 0
    /\ seek decode encode fuel w cp (GetConsensusBlockNumber cp)
            (entry lowestBlock lowestBlockHash) = Some (Ok l)
    /\ cp' = publish cp l.
Proof.
  unfold UpdateBackendGroupConsensus. intros H.
  destruct (lowest cp (backendGroup cp) 0 "") as [[n h]|]; [|discriminate].
  destruct (Z.eqb_spec n 0) as [|Hnz]; [discriminate|].
  fold (entry n h) in H.
  destruct (seek _ _ _ _ _ _ _) as [[l1|]|] eqn:Hseek; try discriminate.
  inversion H; subst. exists n, h. repeat split; auto.
Qed.

(** X8. A cycle that publishes leaves the backend group and the recorded
    states as they were, sets the tracker to the height of its last round,
    and publishes exactly the backends that were, in that round, not rate
    limited, online, not banned and answering the query with a block, in the
    order of the backend group. *)
Theorem published_group_is_who_answered
    (decode : string -> option Z) (encode : Z -> string)
    (fuel : nat) (w : World) (cp cp' : ConsensusPoller) (l : locals) :
  UpdateBackendGroupConsensus decode encode fuel w cp = Some (Ok (cp', Some l)) ->
  consensusGroup cp'
  = List.filter (answered decode encode w cp (proposedBlock l)) (backendGroup cp)
  /\ GetConsensusBlockNumber cp' = proposedBlock l
  /\ backendGroup cp' = backendGroup cp
  /\ backendStates cp' = backendStates cp.
Proof.
  intros H.
  destruct (cycle_published _ _ _ _ _ _ _ H) as (n & h & _ & _ & Hseek & ->).
  destruct (seek_rounds _ _ _ _ _ _ _ _ Hseek) as (k & lk & _ & _ & Hc & Hall).
  repeat split. cbn.
  rewrite (check_agreed_group _ _ _ _ _ _ _ _ Hc Hall).
  rewrite (check_proposedBlock _ _ _ _ _ _ _ _ Hc). reflexivity.
Qed.

Lemma published_group_is_who_answered_witness :
  consensusGroup
    (publish cp_same_block
       (mkLocals 100 "0xaa" [1; 2]%positive ["node-a"; "node-b"] ["node-c"]
                 false true))
  = List.filter
      (answered hexutil.MustDecodeUint64 hexutil.String w_third_offline
                cp_same_block 100)
      (backendGroup cp_same_block)
  /\ GetConsensusBlockNumber
       (publish cp_same_block
          (mkLocals 100 "0xaa" [1; 2]%positive ["node-a"; "node-b"] ["node-c"]
                    false true)) = 100
  /\ backendGroup
       (publish cp_same_block
          (mkLocals 100 "0xaa" [1; 2]%positive ["node-a"; "node-b"] ["node-c"]
                    false true)) = backendGroup cp_same_block
  /\ backendStates
       (publish cp_same_block
          (mkLocals 100 "0xaa" [1; 2]%positive ["node-a"; "node-b"] ["node-c"]
                    false true)) = backendStates cp_same_block.
Proof.
  apply (published_group_is_who_answered
           hexutil.MustDecodeUint64 hexutil.String 1
           w_third_offline cp_same_block _
           (mkLocals 100 "0xaa" [1; 2]%positive ["node-a"; "node-b"]
                     ["node-c"] false true)).
  vm_compute. reflexivity.
Defined.

(** X9. Every backend of the group a cycle publishes answered, in the last
    round, the query at the published height with a block of exactly that
    height, whose hash is the hash the cycle resolved or the empty string
    (a backend answering with an empty hash does not set the hash the others
    are compared with). *)
Theorem published_backends_hold_the_published_block
    (decode : string -> option Z) (encode : Z -> string)
    (fuel : nat) (w : World) (cp cp' : ConsensusPoller) (l : locals)
    (be : Backend) :
  UpdateBackendGroupConsensus decode encode fuel w cp = Some (Ok (cp', Some l)) ->
  be ∈ consensusGroup cp' ->
  exists hash,
    fetchBlock decode w be (encode (GetConsensusBlockNumber cp'))
    = Fetched (GetConsensusBlockNumber cp') hash
    /\ (hash = proposedBlockHash l \/ hash = "").
Proof.
  intros H Hin.
  destruct (cycle_published _ _ _ _ _ _ _ H) as (n & h & _ & _ & Hseek & ->).
  destruct (seek_rounds _ _ _ _ _ _ _ _ Hseek) as (k & lk & _ & _ & Hc & _).
  apply (check_members_agree _ _ _ _ _ _ _ _ Hc).
  - intros b Hb. cbn in Hb. apply elem_of_nil in Hb. contradiction.
  - exact Hin.
Qed.

Lemma published_backends_hold_the_published_block_witness :
  exists hash,
    fetchBlock hexutil.MustDecodeUint64 w_third_offline 2%positive
      (hexutil.String
         (GetConsensusBlockNumber
            (publish cp_same_block
               (mkLocals 100 "0xaa" [1; 2]%positive ["node-a"; "node-b"]
                         ["node-c"] false true))))
    = Fetched
        (GetConsensusBlockNumber
           (publish cp_same_block
              (mkLocals 100 "0xaa" [1; 2]%positive ["node-a"; "node-b"]
                        ["node-c"] false true))) hash
    /\ (hash = "0xaa" \/ hash = "").
Proof.
  apply (published_backends_hold_the_published_block
           hexutil.MustDecodeUint64 hexutil.String 1
           w_third_offline cp_same_block _
           (mkLocals 100 "0xaa" [1; 2]%positive ["node-a"; "node-b"]
                     ["node-c"] false true) 2%positive).
  - vm_compute. reflexivity.
  - cbn. right. left.
Defined.

(** The empty hash at work: the two backends of [w_empty_hash] are
    published together at block 100 although their hashes differ. *)
Example empty_hash_matches_any_hash :
  exists cp' l,
    cycle 1 w_empty_hash cp_empty_hash = Some (Ok (cp', Some l))
    /\ consensusGroup cp' = [1; 2]%positive
    /\ proposedBlockHash l = "0xbb"
    /\ fetchBlock hexutil.MustDecodeUint64 w_empty_hash 1%positive "0x64"
       = Fetched 100 ""
    /\ fetchBlock hexutil.MustDecodeUint64 w_empty_hash 2%positive "0x64"
       = Fetched 100 "0xbb".
Proof.
  do 2 eexists. split; [vm_compute; reflexivity|]. repeat split.
Qed.

(** ** The height a cycle publishes *)

Lemma iter_dec64 (k : nat) :
  forall n, 0 <= n < uint64_modulus -> Z.of_nat k <= n ->
            Nat.iter k dec64 n = n - Z.of_nat k.
Proof.
  induction k as [|k IH]; intros n Hn Hk.
  - cbn. lia.
  - rewrite Nat.iter_succ, IH by lia.
    unfold dec64, wrap64. rewrite Z.mod_small by lia. lia.
Qed.

(** X10. The height a cycle publishes is its baseline lowered once per round
    that ended in disagreement, on 64 bits: after [k] such rounds, with a
    baseline [n] that is a 64-bit height and [k <= n], it is [n - k], at
    most the baseline. *)
Theorem published_height_is_baseline_minus_failed_rounds
    (decode : string -> option Z) (encode : Z -> string)
    (fuel : nat) (w : World) (cp cp' : ConsensusPoller) (l : locals)
    (lowestBlock : Z) (lowestBlockHash : string) :
  lowest cp (backendGroup cp) 0 "" = Ok (lowestBlock, lowestBlockHash) ->
  UpdateBackendGroupConsensus decode encode fuel w cp = Some (Ok (cp', Some l)) ->
  exists k lk,
    (k < fuel)%nat
    /\ locals_after decode encode k w cp (GetConsensusBlockNumber cp)
                    (entry lowestBlock lowestBlockHash) = Some lk
    /\ GetConsensusBlockNumber cp' = Nat.iter k dec64 lowestBlock
    /\ (0 <= lowestBlock < uint64_modulus -> Z.of_nat k <= lowestBlock ->
        GetConsensusBlockNumber cp' = lowestBlock - Z.of_nat k
        /\ 0 <= GetConsensusBlockNumber cp' <= lowestBlock).
Proof.
  intros Hlow H.
  destruct (cycle_published _ _ _ _ _ _ _ H) as (n & h & Hlow' & _ & Hseek & ->).
  rewrite Hlow in Hlow'. inversion Hlow'; subst n h.
  destruct (seek_rounds _ _ _ _ _ _ _ _ Hseek) as (k & lk & Hk & Hafter & Hc & _).
  exists k, lk.
  assert (Hheight : GetConsensusBlockNumber (publish cp l)
                    = Nat.iter k dec64 lowestBlock).
  { cbn. rewrite (check_proposedBlock _ _ _ _ _ _ _ _ Hc). cbn.
    rewrite (locals_after_proposedBlock _ _ _ _ _ _ _ _ Hafter). reflexivity. }
  repeat split; try assumption.
  - rewrite Hheight. apply iter_dec64; assumption.
  - rewrite Hheight, iter_dec64 by assumption. lia.
  - rewrite Hheight, iter_dec64 by assumption. lia.
Qed.

Lemma published_height_is_baseline_minus_failed_rounds_witness :
  exists k lk,
    (k < 2)%nat
    /\ locals_after hexutil.MustDecodeUint64 hexutil.String k w_reorg cp_reorg
                    (GetConsensusBlockNumber cp_reorg) (entry 100 "0xaa")
       = Some lk
    /\ GetConsensusBlockNumber
         (publish cp_reorg
            (mkLocals 99 "0x99" [1; 2]%positive
                      ["node-a"; "node-a"; "node-b"] [] true true))
       = Nat.iter k dec64 100
    /\ (0 <= 100 < uint64_modulus -> Z.of_nat k <= 100 ->
        GetConsensusBlockNumber
          (publish cp_reorg
             (mkLocals 99 "0x99" [1; 2]%positive
                       ["node-a"; "node-a"; "node-b"] [] true true))
        = 100 - Z.of_nat k
        /\ 0 <= GetConsensusBlockNumber
                  (publish cp_reorg
                     (mkLocals 99 "0x99" [1; 2]%positive
                               ["node-a"; "node-a"; "node-b"] [] true true))
           <= 100).
Proof.
  apply (published_height_is_baseline_minus_failed_rounds
           hexutil.MustDecodeUint64 hexutil.String 2 w_reorg cp_reorg _
           (mkLocals 99 "0x99" [1; 2]%positive
                     ["node-a"; "node-a"; "node-b"] [] true true)
           100 "0xaa").
  - vm_compute. reflexivity.
  - vm_compute. reflexivity.
Defined.

(** X11. In a cycle with a nonzero baseline whose first rounds, at least
    one, ended in disagreement: if in the next round every backend that is
    online, not rate limited and not banned answers the query at the
    proposed height with that height and one same hash, the cycle ends with
    that round and publishes that height with exactly those backends, in the
    order of the backend group. *)
Theorem walk_back_stops_at_first_agreement
    (decode : string -> option Z) (encode : Z -> string)
    (w : World) (cp : ConsensusPoller) (k fuel : nat)
    (lowestBlock : Z) (lowestBlockHash hash : string) (lk : locals) :
  lowest cp (backendGroup cp) 0 "" = Ok (lowestBlock, lowestBlockHash) ->
  lowestBlock <> 0 ->
  locals_after decode encode (S k) w cp (GetConsensusBlockNumber cp)
               (entry lowestBlock lowestBlockHash) = Some lk ->
  (forall be, be ∈ backendGroup cp ->
              confirms decode encode w cp be (proposedBlock lk) hash) ->
  exists cp' l',
    UpdateBackendGroupConsensus decode encode (S k + S fuel) w cp
    = Some (Ok (cp', Some l'))
    /\ consensusGroup cp' = List.filter (live w cp) (backendGroup cp)
    /\ GetConsensusBlockNumber cp' = proposedBlock lk
    /\ proposedBlock lk = Nat.iter (S k) dec64 lowestBlock
    /\ broken l' = broken lk.
Proof.
  intros Hlow Hnz Hafter Hconf.
  assert (Hhash : forall j l0 lj,
            locals_after decode encode (S j) w cp (GetConsensusBlockNumber cp) l0
            = Some lj -> proposedBlockHash lj = "").
  { induction j as [|j IH]; intros l0 lj Hj; cbn [locals_after] in Hj;
      destruct (check _ _ _ _ _ _ (begin_round l0)) as [l1|]; try discriminate;
      destruct (allAgreed l1); try discriminate.
    - inversion Hj; reflexivity.
    - apply (IH _ _ Hj). }
  unfold UpdateBackendGroupConsensus. rewrite Hlow.
  destruct (Z.eqb_spec lowestBlock 0) as [E|_]; [contradiction|].
  fold (entry lowestBlock lowestBlockHash).
  rewrite (seek_after decode encode w cp _ (S k) (S fuel) _ lk Hafter).
  cbn [seek].
  destruct (check_unanimous decode encode w cp (GetConsensusBlockNumber cp)
              hash (backendGroup cp) (begin_round lk) Hconf)
    as (l' & Hc & Hp & Hg & Hb & Ha).
  { right. cbn. apply (Hhash _ _ _ Hafter). }
  rewrite Hc. cbn in Ha. rewrite Ha.
  pose proof (locals_after_proposedBlock _ _ _ _ _ _ _ _ Hafter) as Hiter.
  exists (publish cp l'), l'. cbn in Hp, Hg, Hb. cbn [publish consensusGroup].
  repeat split; try assumption.
Qed.

Lemma walk_back_stops_at_first_agreement_witness :
  exists cp' l',
    cycle 2 w_reorg cp_reorg = Some (Ok (cp', Some l'))
    /\ consensusGroup cp'
       = List.filter (live w_reorg cp_reorg) (backendGroup cp_reorg)
    /\ GetConsensusBlockNumber cp' = 99
    /\ 99 = Nat.iter 1 dec64 100
    /\ broken l' = true.
Proof.
  apply (walk_back_stops_at_first_agreement
           hexutil.MustDecodeUint64 hexutil.String w_reorg cp_reorg 0 0
           100 "0xaa" "0x99"
           (mkLocals 99 "" [1%positive] ["node-a"] [] true false)).
  - vm_compute. reflexivity.
  - lia.
  - vm_compute. reflexivity.
  - intros be Hin.
    repeat (apply elem_of_cons in Hin as [-> | Hin]);
      [right; split; vm_compute; reflexivity ..
      | apply elem_of_nil in Hin; contradiction].
Defined.

(** ** The group handed to the routing code *)

(** X12. [GetConsensusGroup] always returns as many elements as the backend
    group has backends: at each such position the published backend when the
    published group reaches that far, a nil pointer otherwise. *)
Theorem GetConsensusGroup_elements (cp : ConsensusPoller) (i : nat) :
  length (GetConsensusGroup cp) = length (backendGroup cp)
  /\ GetConsensusGroup cp !! i
     = (if (i <? length (backendGroup cp))%nat
        then Some (consensusGroup cp !! i) else None).
Proof.
  unfold GetConsensusGroup, copy.
  rewrite length_replicate, length_fmap.
  set (n := length (backendGroup cp)). set (g := consensusGroup cp).
  split.
  - rewrite length_app, length_take, length_drop, length_replicate, length_fmap.
    lia.
  - rewrite drop_replicate.
    destruct (Nat.ltb_spec i n) as [Hlt|Hge].
    + destruct (Nat.lt_ge_cases i (length g)) as [Hig|Hig].
      * rewrite lookup_app_l
          by (rewrite length_take, length_fmap; lia).
        rewrite lookup_take_lt by lia.
        rewrite list_lookup_fmap.
        destruct (g !! i) as [x|] eqn:Hx; [reflexivity|].
        apply lookup_ge_None in Hx. lia.
      * rewrite lookup_app_r
          by (rewrite length_take, length_fmap; lia).
        rewrite length_take, length_fmap.
        rewrite lookup_replicate_2 by lia.
        rewrite (proj2 (lookup_ge_None g i)) by lia. reflexivity.
    + apply lookup_ge_None.
      rewrite length_app, length_take, length_replicate, length_fmap. lia.
Qed.

(** X13. After a cycle that publishes, what [GetConsensusGroup] returns is
    the published group, which is no longer than the backend group, followed
    by one nil pointer for each backend of the group that is not
    published. *)
Theorem GetConsensusGroup_after_publication
    (decode : string -> option Z) (encode : Z -> string)
    (fuel : nat) (w : World) (cp cp' : ConsensusPoller) (l : locals) :
  UpdateBackendGroupConsensus decode encode fuel w cp = Some (Ok (cp', Some l)) ->
  (length (consensusGroup cp') <= length (backendGroup cp'))%nat
  /\ GetConsensusGroup cp'
     = ((Some <$> consensusGroup cp')
        ++ replicate (length (backendGroup cp') - length (consensusGroup cp'))%nat
                     None)%list.
Proof.
  intros H.
  destruct (cycle_published _ _ _ _ _ _ _ H) as (n & h & _ & _ & Hseek & ->).
  destruct (seek_rounds _ _ _ _ _ _ _ _ Hseek) as (k & lk & _ & _ & Hc & Hall).
  assert (Hlen : (length (consensusGroup (publish cp l))
                  <= length (backendGroup (publish cp l)))%nat).
  { cbn. rewrite (check_agreed_group _ _ _ _ _ _ _ _ Hc Hall). cbn.
    apply List.filter_length_le. }
  split; [exact Hlen|]. apply GetConsensusGroup_padded. exact Hlen.
Qed.

Lemma GetConsensusGroup_after_publication_witness :
  (length (consensusGroup cp_same_block_published)
   <= length (backendGroup cp_same_block_published))%nat
  /\ GetConsensusGroup cp_same_block_published
     = ((Some <$> consensusGroup cp_same_block_published)
        ++ replicate (length (backendGroup cp_same_block_published)
                      - length (consensusGroup cp_same_block_published))%nat
                     None)%list.
Proof.
  apply (GetConsensusGroup_after_publication
           hexutil.MustDecodeUint64 hexutil.String 1
           w_third_offline cp_same_block cp_same_block_published
           l_same_block).
  vm_compute. reflexivity.
Defined.

(** ** Panics of a cycle *)

Lemma lowest_panics_iff (cp : ConsensusPoller) (bes : list Backend) :
  forall n0 h0,
    lowest cp bes n0 h0 = Panic
    <-> exists be, be ∈ bes /\ backendStates cp !! be = None.
Proof.
  induction bes as [|b rest IH]; intros n0 h0; cbn [lowest].
  - split; [discriminate|]. intros (be & Hin & _).
    apply elem_of_nil in Hin. contradiction.
  - unfold getBackendState.
    destruct (backendStates cp !! b) as [bs|] eqn:Hb.
    + assert (Hrest : (exists be, be ∈ b :: rest /\ backendStates cp !! be = None)
                      <-> exists be, be ∈ rest /\ backendStates cp !! be = None).
      { split; intros (be & Hin & Hnone).
        - apply elem_of_cons in Hin as [->|Hin]; [congruence|].
          exists be. auto.
        - exists be. split; [right; exact Hin|exact Hnone]. }
      rewrite Hrest.
      destruct ((n0 =? 0) || (latestBlockNumber bs <? n0)); apply IH.
    + split; [|reflexivity]. intros _. exists b. split; [left|exact Hb].
Qed.

Section NoPanic.

Variable decode : string -> option Z.
Variable encode : Z -> string.
Variable w : World.
Variable cp : ConsensusPoller.
Variable current : Z.

Hypothesis fetch_returns :
  forall be tag, be ∈ backendGroup cp -> fetchBlock decode w be tag <> FetchPanic.

Lemma check_returns (bes : list Backend) :
  (forall be, be ∈ bes ->
     be ∈ backendGroup cp /\ is_Some (backendStates cp !! be)) ->
  forall l, check decode encode w cp current bes l <> Panic.
Proof.
  induction bes as [|b rest IH]; intros Hcover l; cbn [check]; [discriminate|].
  assert (Hrest : forall be, be ∈ rest ->
            be ∈ backendGroup cp /\ is_Some (backendStates cp !! be)).
  { intros be Hin. apply Hcover. right. exact Hin. }
  destruct (Hcover b) as [Hpool [bs Hbs]]; [left|].
  unfold filtered. rewrite Hbs.
  destruct (IsRateLimited w b || negb (Online w b)); [apply IH; exact Hrest|].
  destruct (now w <? bannedUntil bs); [apply IH; exact Hrest|].
  pose proof (fetch_returns b (encode (proposedBlock l)) Hpool) as Hf.
  destruct (fetchBlock decode w b (encode (proposedBlock l))) as [n h|e|];
    [| |contradiction].
  - destruct (negb (n =? proposedBlock l) || _); [discriminate|].
    apply IH. exact Hrest.
  - apply IH. exact Hrest.
Qed.

Lemma seek_returns (fuel : nat) :
  states_cover_group cp ->
  forall l, seek decode encode fuel w cp current l <> Some Panic.
Proof.
  intros Hcover. induction fuel as [|fuel IH]; intros l; cbn [seek];
    [discriminate|].
  pose proof (check_returns (backendGroup cp)) as Hc.
  destruct (check decode encode w cp current (backendGroup cp) (begin_round l))
    as [l1|] eqn:E.
  - destruct (allAgreed l1); [discriminate|apply IH].
  - exfalso. apply (Hc (fun be Hin => conj Hin (Hcover be Hin)) _ E).
Qed.

End NoPanic.

(** X14. On a poller in which every backend of the group has a state, as
    [NewConsensusPoller] builds it and [UpdateBackend] and the cycles keep
    it, a cycle panics only if a fetch does: where no fetch from a backend of
    the group panics, no cycle panics. *)
Theorem cycle_panics_only_with_a_fetch
    (decode : string -> option Z) (encode : Z -> string)
    (fuel : nat) (w : World) (cp : ConsensusPoller) :
  states_cover_group cp ->
  (forall be tag, be ∈ backendGroup cp ->
                  fetchBlock decode w be tag <> FetchPanic) ->
  UpdateBackendGroupConsensus decode encode fuel w cp <> Some Panic.
Proof.
  intros Hcover Hfetch. unfold UpdateBackendGroupConsensus.
  destruct (lowest cp (backendGroup cp) 0 "") as [[n h]|] eqn:Hlow.
  - destruct (n =? 0); [discriminate|].
    pose proof (seek_returns decode encode w cp (GetConsensusBlockNumber cp)
                  Hfetch fuel Hcover
                  (mkLocals n h [] [] [] false false)) as Hs.
    destruct (seek _ _ _ _ _ _ _) as [[l|]|]; congruence.
  - exfalso. apply lowest_panics_iff in Hlow as (be & Hin & Hnone).
    destruct (Hcover be Hin) as [bs Hbs]. congruence.
Qed.

Lemma cycle_panics_only_with_a_fetch_witness :
  cycle 1 w_third_offline cp_same_block <> Some Panic.
Proof.
  apply (cycle_panics_only_with_a_fetch
           hexutil.MustDecodeUint64 hexutil.String 1
           w_third_offline cp_same_block).
  - intros be Hin.
    repeat (apply elem_of_cons in Hin as [-> | Hin]);
      [eexists; vm_compute; reflexivity ..
      | apply elem_of_nil in Hin; contradiction].
  - intros be tag _. discriminate.
Defined.

(** X15. A backend of the group without a state makes every cycle panic,
    before any backend is queried: whatever the fuel and the world are. *)
Theorem cycle_panics_on_missing_state
    (decode : string -> option Z) (encode : Z -> string)
    (fuel : nat) (w : World) (cp : ConsensusPoller) (be : Backend) :
  be ∈ backendGroup cp ->
  backendStates cp !! be = None ->
  UpdateBackendGroupConsensus decode encode fuel w cp = Some Panic.
Proof.
  intros Hin Hnone. unfold UpdateBackendGroupConsensus.
  rewrite (proj2 (lowest_panics_iff cp (backendGroup cp) 0 "")); [reflexivity|].
  exists be. auto.
Qed.

Lemma cycle_panics_on_missing_state_witness :
  cycle 1 w_up (mkPoller [1; 2]%positive (backendStates cp_refreshed) []
                         (mkTracker 0)) = Some Panic.
Proof.
  apply (cycle_panics_on_missing_state
           hexutil.MustDecodeUint64 hexutil.String 1 w_up
           (mkPoller [1; 2]%positive (backendStates cp_refreshed) []
                     (mkTracker 0)) 2%positive).
  - right. left.
  - vm_compute. reflexivity.
Defined.

(** ** The baseline, again *)

(** X16. When the backend group is not empty and every backend records a
    height above zero, the baseline scan returns the smallest recorded
    height, together with the hash recorded by a backend at that height. *)
Theorem baseline_is_minimum_when_all_have_data
    (cp : ConsensusPoller) :
  backendGroup cp <> [] ->
  (forall be, be ∈ backendGroup cp ->
     exists bs, backendStates cp !! be = Some bs /\ 0 < latestBlockNumber bs) ->
  exists n h,
    lowest cp (backendGroup cp) 0 "" = Ok (n, h)
    /\ 0 < n
    /\ (forall be bs, be ∈ backendGroup cp ->
          backendStates cp !! be = Some bs -> n <= latestBlockNumber bs)
    /\ exists be bs, be ∈ backendGroup cp
                     /\ backendStates cp !! be = Some bs
                     /\ latestBlockNumber bs = n /\ latestBlockHash bs = h.
Proof.
  intros Hne Hdata. apply lowest_is_minimum_with_data; assumption.
Qed.

Lemma baseline_is_minimum_when_all_have_data_witness :
  exists n h,
    lowest cp_stale_offline (backendGroup cp_stale_offline) 0 "" = Ok (n, h)
    /\ 0 < n
    /\ (forall be bs, be ∈ backendGroup cp_stale_offline ->
          backendStates cp_stale_offline !! be = Some bs ->
          n <= latestBlockNumber bs)
    /\ exists be bs, be ∈ backendGroup cp_stale_offline
                     /\ backendStates cp_stale_offline !! be = Some bs
                     /\ latestBlockNumber bs = n /\ latestBlockHash bs = h.
Proof.
  apply (baseline_is_minimum_when_all_have_data cp_stale_offline).
  - discriminate.
  - intros be Hin.
    repeat (apply elem_of_cons in Hin as [-> | Hin]);
      [eexists; split; [vm_compute; reflexivity|cbn; lia] ..
      | apply elem_of_nil in Hin; contradiction].
Defined.

Lemma lowest_app (cp : ConsensusPoller) (front back : list Backend) :
  forall n0 h0,
    lowest cp (front ++ back) n0 h0
    = match lowest cp front n0 h0 with
      | Ok (n, h) => lowest cp back n h
      | Panic => Panic
      end.
Proof.
  induction front as [|b rest IH]; intros n0 h0; cbn [lowest app].
  - reflexivity.
  - destruct (getBackendState cp b) as [[n h]|]; [|reflexivity].
    destruct ((n0 =? 0) || (n <? n0)); apply IH.
Qed.

Lemma lowest_nonnegative (cp : ConsensusPoller) (bes : list Backend) :
  (forall be, be ∈ bes ->
     exists bs, backendStates cp !! be = Some bs /\ 0 <= latestBlockNumber bs) ->
  forall n0 h0, 0 <= n0 ->
    exists n h, lowest cp bes n0 h0 = Ok (n, h) /\ 0 <= n.
Proof.
  induction bes as [|b rest IH]; intros Hdata n0 h0 Hn0; cbn [lowest].
  - exists n0, h0. auto.
  - destruct (Hdata b) as (bs & Hb & Hpos); [left|].
    unfold getBackendState. rewrite Hb.
    assert (Hrest : forall be, be ∈ rest ->
              exists bs, backendStates cp !! be = Some bs
                         /\ 0 <= latestBlockNumber bs).
    { intros be Hin. apply Hdata. right. exact Hin. }
    destruct ((n0 =? 0) || (latestBlockNumber bs <? n0)); apply IH; assumption.
Qed.

(** X17. With a state for every backend and no negative height, the cycle
    returns without resolving anything exactly when the last backend of the
    group records height zero, whatever the backends before it record. *)
Theorem cycle_returns_early_iff_last_backend_has_no_data
    (decode : string -> option Z) (encode : Z -> string)
    (fuel : nat) (w : World) (cp : ConsensusPoller)
    (front : list Backend) (last : Backend) (bs : backendState) :
  backendGroup cp = (front ++ [last])%list ->
  (forall be, be ∈ backendGroup cp ->
     exists s, backendStates cp !! be = Some s /\ 0 <= latestBlockNumber s) ->
  backendStates cp !! last = Some bs ->
  (UpdateBackendGroupConsensus decode encode fuel w cp = Some (Ok (cp, None))
   <-> latestBlockNumber bs = 0).
Proof.
  intros Hgroup Hdata Hlast.
  unfold UpdateBackendGroupConsensus. rewrite Hgroup, lowest_app.
  destruct (lowest_nonnegative cp front) with (n0 := 0) (h0 := "")
    as (n & h & Hfront & Hn); [|lia|].
  { intros be Hin. apply Hdata. rewrite Hgroup. apply elem_of_app. auto. }
  rewrite Hfront. cbn [lowest]. unfold getBackendState. rewrite Hlast.
  destruct (Hdata last) as (s & Hs & Hpos).
  { rewrite Hgroup. apply elem_of_app. right. left. }
  rewrite Hlast in Hs. inversion Hs; subst s.
  destruct (Z.eqb_spec n 0) as [->|Hnz]; cbn [orb].
  - destruct (Z.eqb_spec (latestBlockNumber bs) 0) as [E|E].
    + split; auto.
    + split; [|contradiction].
      destruct (seek _ _ _ _ _ _ _) as [[l|]|]; discriminate.
  - destruct (Z.ltb_spec (latestBlockNumber bs) n) as [Hlt|Hge].
    + destruct (Z.eqb_spec (latestBlockNumber bs) 0) as [E|E].
      * split; auto.
      * split; [|contradiction].
        destruct (seek _ _ _ _ _ _ _) as [[l|]|]; discriminate.
    + destruct (Z.eqb_spec n 0) as [E|_]; [contradiction|].
      split; [|lia].
      destruct (seek _ _ _ _ _ _ _) as [[l|]|]; discriminate.
Qed.

Lemma cycle_returns_early_iff_last_backend_has_no_data_witness :
  cycle 1 w_up cp_cold_last = Some (Ok (cp_cold_last, None))
  <-> latestBlockNumber (recorded 0 "") = 0.
Proof.
  apply (cycle_returns_early_iff_last_backend_has_no_data
           hexutil.MustDecodeUint64 hexutil.String 1 w_up cp_cold_last
           [1; 3]%positive 2%positive (recorded 0 "")).
  - reflexivity.
  - intros be Hin.
    repeat (apply elem_of_cons in Hin as [-> | Hin]);
      [eexists; split; [vm_compute; reflexivity|cbn; lia] ..
      | apply elem_of_nil in Hin; contradiction].
  - vm_compute. reflexivity.
Defined.

(** ** The names of the final log line *)




(** ** Refresh, then read *)

(** X19. The refresh of a backend that has a state, is neither banned, rate
    limited nor offline, and whose fetch of the latest block returns a
    block, stores that block: [getBackendState] then returns its height and
    hash, whatever was recorded before. *)
Theorem UpdateBackend_stores_the_latest_block
    (decode : string -> option Z) (w : World) (cp : ConsensusPoller)
    (be : Backend) (bs : backendState) (n : Z) (h : string) :
  backendStates cp !! be = Some bs ->
  refresh_skipped w bs be = false ->
  fetchBlock decode w be "latest" = Fetched n h ->
  exists cp' metric,
    UpdateBackend decode w cp be = Ok (cp', metric)
    /\ getBackendState cp' be = Ok (n, h)
    /\ backendStates cp' !! be
       = Some (mkBackendState n h (now w) (bannedUntil bs)).
Proof.
  intros Hbs Hskip Hfetch.
  pose proof (UpdateBackend_cases decode w cp be) as Hc.
  rewrite Hbs, Hskip, Hfetch in Hc. rewrite Hc.
  eexists _, _. split; [reflexivity|].
  unfold getBackendState. cbn. rewrite lookup_insert_eq. auto.
Qed.

Lemma UpdateBackend_stores_the_latest_block_witness :
  exists cp' metric,
    UpdateBackend hexutil.MustDecodeUint64 w_up cp_new 1%positive
    = Ok (cp', metric)
    /\ getBackendState cp' 1%positive = Ok (100, "0xaa")
    /\ backendStates cp' !! 1%positive
       = Some (mkBackendState 100 "0xaa" (now w_up)
                              (bannedUntil zeroBackendState)).
Proof.
  apply (UpdateBackend_stores_the_latest_block
           hexutil.MustDecodeUint64 w_up cp_new 1%positive zeroBackendState
           100 "0xaa").
  - vm_compute. reflexivity.
  - vm_compute. reflexivity.
  - vm_compute. reflexivity.
Defined.

(** ** What the previous consensus does not influence *)

Section Previous.

Variable decode : string -> option Z.
Variable encode : Z -> string.
Variable w : World.
Variables cp1 cp2 : ConsensusPoller.
Variables current1 current2 : Z.

Hypothesis same_states : backendStates cp1 = backendStates cp2.
Hypothesis same_group : backendGroup cp1 = backendGroup cp2.

Lemma filtered_same (be : Backend) : filtered w cp1 be = filtered w cp2 be.
Proof. unfold filtered. rewrite same_states. reflexivity. Qed.

Lemma check_without_broken (bes : list Backend) :
  forall l1 l2,
    without_broken l1 = without_broken l2 ->
    result_map without_broken (check decode encode w cp1 current1 bes l1)
    = result_map without_broken (check decode encode w cp2 current2 bes l2).
Proof.
  induction bes as [|b rest IH]; intros l1 l2 E; cbn [check].
  - cbn. rewrite E. reflexivity.
  - destruct l1 as [p1 h1 c1 n1 f1 b1 a1], l2 as [p2 h2 c2 n2 f2 b2 a2].
    unfold without_broken in E. cbn in E. inversion E; subst.
    rewrite filtered_same.
    destruct (filtered w cp2 b) as [[|]|]; [| |reflexivity].
    + apply IH. reflexivity.
    + cbn [proposedBlock proposedBlockHash].
      destruct (fetchBlock decode w b (encode p2)) as [n h|e|];
        [| |reflexivity].
      * destruct (negb (n =? p2) || _).
        -- reflexivity.
        -- apply IH. reflexivity.
      * apply IH. reflexivity.
Qed.

Lemma seek_without_broken (fuel : nat) :
  forall l1 l2,
    without_broken l1 = without_broken l2 ->
    option_map (result_map without_broken)
               (seek decode encode fuel w cp1 current1 l1)
    = option_map (result_map without_broken)
                 (seek decode encode fuel w cp2 current2 l2).
Proof.
  induction fuel as [|fuel IH]; intros l1 l2 E; cbn [seek]; [reflexivity|].
  rewrite <- same_group.
  assert (Eb : without_broken (begin_round l1) = without_broken (begin_round l2)).
  { destruct l1, l2. unfold without_broken in *. cbn in *.
    inversion E; subst. reflexivity. }
  pose proof (check_without_broken (backendGroup cp1) _ _ Eb) as Hc.
  destruct (check decode encode w cp1 current1 (backendGroup cp1) (begin_round l1))
    as [a|];
    destruct (check decode encode w cp2 current2 (backendGroup cp1) (begin_round l2))
    as [b|]; cbn [result_map] in Hc; try discriminate; [|reflexivity].
  assert (Hab : without_broken a = without_broken b) by congruence.
  assert (Hall : allAgreed a = allAgreed b).
  { destruct a, b. unfold without_broken in Hab. cbn in *. congruence. }
  rewrite Hall. destruct (allAgreed b).
  - cbn [option_map result_map]. rewrite Hab. reflexivity.
  - apply IH. destruct a, b. unfold without_broken in *. cbn in *.
    inversion Hab; subst. reflexivity.
Qed.

End Previous.

(** X20. The height and the group a cycle publishes depend on the backend
    group, the recorded states and the world only: two pollers that differ
    in nothing but the consensus already published (tracker and group)
    publish the same height and the same group, with the same proposed hash
    and the same logged names.  The consensus already published shows in the
    broken-consensus flag alone. *)
Theorem published_result_ignores_previous_consensus
    (decode : string -> option Z) (encode : Z -> string)
    (fuel : nat) (w : World) (cp1 cp2 cp1' : ConsensusPoller) (l1 : locals) :
  backendStates cp1 = backendStates cp2 ->
  backendGroup cp1 = backendGroup cp2 ->
  UpdateBackendGroupConsensus decode encode fuel w cp1
  = Some (Ok (cp1', Some l1)) ->
  exists cp2' l2,
    UpdateBackendGroupConsensus decode encode fuel w cp2
    = Some (Ok (cp2', Some l2))
    /\ consensusGroup cp2' = consensusGroup cp1'
    /\ GetConsensusBlockNumber cp2' = GetConsensusBlockNumber cp1'
    /\ without_broken l2 = without_broken l1.
Proof.
  intros Hstates Hgroup H.
  destruct (cycle_published _ _ _ _ _ _ _ H) as (n & h & Hlow & Hnz & Hseek & ->).
  assert (Hlow2 : lowest cp2 (backendGroup cp2) 0 "" = Ok (n, h)).
  { rewrite <- Hgroup, <- Hlow. clear - Hstates.
    generalize (backendGroup cp1) 0 "". intros bes.
    induction bes as [|b rest IH]; intros n0 h0; cbn [lowest]; [reflexivity|].
    unfold getBackendState. rewrite Hstates.
    destruct (backendStates cp2 !! b) as [bs|]; [|reflexivity].
    destruct ((n0 =? 0) || (latestBlockNumber bs <? n0)); apply IH. }
  unfold UpdateBackendGroupConsensus. rewrite Hlow2.
  destruct (Z.eqb_spec n 0) as [E|_]; [contradiction|].
  fold (entry n h).
  pose proof (seek_without_broken decode encode w cp1 cp2
                (GetConsensusBlockNumber cp1) (GetConsensusBlockNumber cp2)
                Hstates Hgroup fuel (entry n h) (entry n h) eq_refl) as Hs.
  rewrite Hseek in Hs.
  destruct (seek decode encode fuel w cp2 (GetConsensusBlockNumber cp2)
                 (entry n h)) as [[l2|]|]; cbn [option_map result_map] in Hs;
    try discriminate.
  assert (Hl : without_broken l1 = without_broken l2) by congruence.
  exists (publish cp2 l2), l2. split; [reflexivity|].
  destruct l1, l2. unfold without_broken in *. cbn in *.
  inversion Hl; subst. repeat split.
Qed.

Lemma published_result_ignores_previous_consensus_witness :
  exists cp2' l2,
    cycle 2 w_reorg
          (mkPoller (backendGroup cp_reorg) (backendStates cp_reorg) [] (mkTracker 7))
    = Some (Ok (cp2', Some l2))
    /\ consensusGroup cp2'
       = consensusGroup
           (publish cp_reorg
              (mkLocals 99 "0x99" [1; 2]%positive
                        ["node-a"; "node-a"; "node-b"] [] true true))
    /\ GetConsensusBlockNumber cp2'
       = GetConsensusBlockNumber
           (publish cp_reorg
              (mkLocals 99 "0x99" [1; 2]%positive
                        ["node-a"; "node-a"; "node-b"] [] true true))
    /\ without_broken l2
       = without_broken
           (mkLocals 99 "0x99" [1; 2]%positive
                     ["node-a"; "node-a"; "node-b"] [] true true).
Proof.
  apply (published_result_ignores_previous_consensus
           hexutil.MustDecodeUint64 hexutil.String 2 w_reorg cp_reorg
           (mkPoller (backendGroup cp_reorg) (backendStates cp_reorg) []
                     (mkTracker 7))
           (publish cp_reorg
              (mkLocals 99 "0x99" [1; 2]%positive
                        ["node-a"; "node-a"; "node-b"] [] true true))
           (mkLocals 99 "0x99" [1; 2]%positive
                     ["node-a"; "node-a"; "node-b"] [] true true)).
  - reflexivity.
  - reflexivity.
  - vm_compute. reflexivity.
Defined.
